(** * Image analysis service (apps/image-analysis-service)

    Shallow embedding of [main.py] and of the three services
    [content_moderation.py], [image_description.py] and [vector_search.py].

    Python exceptions are values of [exn]; a method that may raise runs in a
    state and error monad [M] whose state is the part of the outside world the
    code mutates (the file system, the Qdrant collections, the draws of
    [uuid.uuid4]) together with a trace of the calls the code issues, so that
    "provider X is never invoked" is a statement about the trace.  Everything
    the code receives from libraries or servers it does not own (PIL, NudeNet,
    the HTTP servers of Ollama and OpenAI, the CLIP model, Qdrant's ranking) is
    an oracle of a [world] record. *)

From Stdlib Require Import String List ZArith QArith Qround Bool Lia.
Import ListNotations.
Open Scope string_scope.
Set Warnings "-register-all".

(** ** Python values used by the code *)

Definition bytes := list Byte.byte.

(** Python exceptions.  [HTTPException] is FastAPI's (a subclass of
    [Exception], so [except Exception] catches it); every other exception
    carries its class name and its [str]. *)
Inductive exn :=
| PyExc (cls : string) (msg : string)
| HTTPException (status_code : Z) (detail : string).

(** Decimal rendering of a non-negative integer (as [str(int)] prints it). *)
Definition digit (n : nat) : string :=
  String (Ascii.ascii_of_nat (48 + n)) EmptyString.

Fixpoint nat_to_string_fuel (fuel n : nat) (acc : string) : string :=
  match fuel with
  | O => acc
  | S fuel' =>
      let acc' := digit (Nat.modulo n 10) ++ acc in
      if Nat.ltb n 10 then acc' else nat_to_string_fuel fuel' (Nat.div n 10) acc'
  end.

Definition Z_to_string (z : Z) : string :=
  if (z <? 0)%Z then "-" ++ nat_to_string_fuel (S (Z.to_nat (- z))) (Z.to_nat (- z)) EmptyString
  else nat_to_string_fuel (S (Z.to_nat z)) (Z.to_nat z) EmptyString.

(** [str(e)].  Starlette's [HTTPException.__str__] is
    [f"{self.status_code}: {self.detail}"]. *)
Definition str_exn (e : exn) : string :=
  match e with
  | PyExc _ m => m
  | HTTPException c d => Z_to_string c ++ ": " ++ d
  end.

Inductive result (A : Type) :=
| Ok (a : A)
| Err (e : exn).
Arguments Ok {A} a.
Arguments Err {A} e.

(** Python truthiness of a [str]. *)
Definition truthy (s : string) : bool :=
  match s with EmptyString => false | _ => true end.

(** [needle in hay] for two [str]. *)
Fixpoint str_contains (needle hay : string) : bool :=
  if String.prefix needle hay then true
  else match hay with
       | EmptyString => false
       | String _ hay' => str_contains needle hay'
       end.

(** ** Effects: the mutable world and the trace of calls *)

(** One record of the vector store ([PointStruct]). *)
Record point := mk_point {
  pid : string;
  vector : list Q;
  payload : list (string * string)
}.

(** Calls the code issues, in order. *)
Inductive event :=
| EvFsWrite (path : string)
| EvFsRead (path : string)
| EvFsRemove (path : string)
| EvDetect (path : string)
| EvGenerateDescription
| EvHttpGet (url : string)
| EvHttpPost (url : string)
| EvGenerateEmbedding (text : string)
| EvEncode (text : string)
| EvUpsert (id : string)
| EvQuery (limit : Z).

Record st := mk_st {
  fs : list (string * bytes);              (** the file system *)
  collections : list (string * list point); (** the Qdrant server *)
  uuid_next : nat;                          (** draws of [uuid.uuid4] so far *)
  trace : list event
}.

Definition M (A : Type) := st -> result A * st.

Definition ret {A} (a : A) : M A := fun s => (Ok a, s).
Definition raise {A} (e : exn) : M A := fun s => (Err e, s).
Definition bind {A B} (m : M A) (k : A -> M B) : M B :=
  fun s => match m s with
           | (Ok a, s') => k a s'
           | (Err e, s') => (Err e, s')
           end.
(** [try: m  except Exception as e: h(e)]. *)
Definition try_except {A} (m : M A) (h : exn -> M A) : M A :=
  fun s => match m s with
           | (Ok a, s') => (Ok a, s')
           | (Err e, s') => h e s'
           end.
Definition lift {A} (r : result A) : M A := fun s => (r, s).
Definition emit (ev : event) : M unit :=
  fun s => (Ok tt, mk_st (fs s) (collections s) (uuid_next s) (trace s ++ [ev])).

Notation "x <- m ;; k" := (bind m (fun x => k))
  (at level 61, m at next level, right associativity).
Notation "m ;; k" := (bind m (fun _ => k))
  (at level 61, right associativity).

(** Python dict assignment [d[k] = v] on an insertion-ordered dict. *)
Fixpoint dict_set {V} (d : list (string * V)) (k : string) (v : V) : list (string * V) :=
  match d with
  | [] => [(k, v)]
  | (k', v') :: d' => if String.eqb k k' then (k, v) :: d' else (k', v') :: dict_set d' k v
  end.

Fixpoint dict_get {V} (d : list (string * V)) (k : string) : option V :=
  match d with
  | [] => None
  | (k', v') :: d' => if String.eqb k k' then Some v' else dict_get d' k
  end.

(** File system operations of the [os] module and of [Image.save]. *)
Definition fs_write (path : string) (data : bytes) : M unit :=
  fun s => (Ok tt, mk_st (dict_set (fs s) path data) (collections s) (uuid_next s)
                         (trace s ++ [EvFsWrite path])).

(** [os.remove(path)]: [FileNotFoundError] when the file is absent. *)
Definition fs_remove (path : string) : M unit :=
  fun s => match dict_get (fs s) path with
           | Some _ =>
               (Ok tt, mk_st (filter (fun kv => negb (String.eqb (fst kv) path)) (fs s))
                             (collections s) (uuid_next s) (trace s ++ [EvFsRemove path]))
           | None => (Err (PyExc "FileNotFoundError" ("No such file or directory: " ++ path)),
                      mk_st (fs s) (collections s) (uuid_next s) (trace s ++ [EvFsRemove path]))
           end.

Definition fs_read (path : string) : M bytes :=
  fun s => match dict_get (fs s) path with
           | Some d => (Ok d, mk_st (fs s) (collections s) (uuid_next s) (trace s ++ [EvFsRead path]))
           | None => (Err (PyExc "FileNotFoundError" ("No such file or directory: " ++ path)),
                      mk_st (fs s) (collections s) (uuid_next s) (trace s ++ [EvFsRead path]))
           end.

(** ** The outside world *)

(** A decoded PIL image. *)
Record image := mk_image {
  mode : string;
  width : Z;
  height : Z;
  pixels : bytes
}.

(** A JSON document as [response.json()] returns it. *)
Inductive json :=
| JNull
| JBool (b : bool)
| JInt (z : Z)
| JFloat (q : Q)
| JStr (s : string)
| JArr (l : list json)
| JObj (kvs : list (string * json)).

(** What [requests.get] / [requests.post] do: raise (timeout, connection
    error), or answer with a status and a body ([None] when the body is not
    JSON, so that [response.json()] raises). *)
Inductive http_outcome :=
| HttpRaise (e : exn)
| HttpResp (status : Z) (body : option json).

(** The two description requests of [image_description.py]; the image is the
    JPEG buffer whose base64 text the request carries. *)
Inductive http_request :=
| ReqOllamaGenerate (url model prompt : string) (img : bytes)
| ReqOpenAIChat (api_key : string) (model prompt : string) (img : bytes) (max_tokens : Z).

Definition request_url (r : http_request) : string :=
  match r with
  | ReqOllamaGenerate url _ _ _ => url
  | ReqOpenAIChat _ _ _ _ _ => "https://api.openai.com/v1/chat/completions"
  end.

(** One entry of [NudeDetector.detect]: [{'class', 'score', 'box'}]. *)
Record raw_detection := mk_raw {
  d_class : string;
  d_score : Q;
  d_box : list Z
}.

(** One ranked hit of [query_points]: [ScoredPoint]. *)
Record scored_point := mk_scored {
  sp_payload : list (string * string);
  sp_score : Q
}.

Record world := mk_world {
  pil_open : bytes -> result image;                (** [Image.open(io.BytesIO(b))] *)
  paste_on_white : image -> result image;          (** white RGB background, alpha as mask *)
  convert_rgb : image -> result image;             (** [image.convert('RGB')] *)
  resize_lanczos : image -> Z -> Z -> result image; (** [image.resize(size, LANCZOS)] *)
  save_jpeg : image -> option Z -> result bytes;   (** [image.save(_, format='JPEG'[, quality])] *)
  nudenet_init : result unit;                      (** [NudeDetector()] *)
  nudenet_detect : bytes -> result (list raw_detection);
  http_get : string -> http_outcome;
  http_post : http_request -> http_outcome;
  clip_load : result unit;                         (** [SentenceTransformer('clip-ViT-B-32')] *)
  clip_encode : string -> result (list Q);         (** [model.encode(text).tolist()] *)
  qdrant_connect : result unit;                    (** [QdrantClient(...)] *)
  qdrant_up : option exn;                          (** failure of every request to the server *)
  qdrant_create_error : option exn;                (** the server refuses [create_collection],
                                                       e.g. a concurrent create *)
  qdrant_rank : list point -> list Q -> Z -> list scored_point;
  uuid4 : nat -> string                            (** the n-th draw of [uuid.uuid4()] *)
}.

(** ** content_moderation.py *)

Definition temp_path : string := "/tmp/temp_image.jpg".

Definition unsafe_labels : list string :=
  [ "EXPOSED_BREAST_F"; "EXPOSED_GENITALIA_F"; "EXPOSED_GENITALIA_M";
    "EXPOSED_BUTTOCKS"; "EXPOSED_ANUS" ].

(** Python floats are dyadic rationals, held exactly by [Q]; [0.6] is the
    double 5404319552844595 * 2^-53. *)
Definition float_0_6 : Q := Qmake 5404319552844595 (2 ^ 53).

(** [float(os.getenv("CONTENT_MODERATION_THRESHOLD", "0.6"))] for a
    variable that is unset or parses to the double [q]. *)
Definition threshold_of_env (v : option Q) : Q :=
  match v with Some q => q | None => float_0_6 end.

(** The value of an environment variable that the code converts with
    [float(...)] or [int(...)]: either the number the text converts to, or
    a text the conversion refuses. *)
Inductive parsed (A : Type) :=
| Parses (a : A)
| NoParse (raw : string).
Arguments Parses {A} a.
Arguments NoParse {A} raw.

(** [float(os.getenv("CONTENT_MODERATION_THRESHOLD", "0.6"))]: a text
    that is not a float raises [ValueError]. *)
Definition parse_threshold (v : option (parsed Q)) : result Q :=
  match v with
  | None => Ok (threshold_of_env None)
  | Some (Parses q) => Ok (threshold_of_env (Some q))
  | Some (NoParse raw) =>
      Err (PyExc "ValueError" ("could not convert string to float: '" ++ raw ++ "'"))
  end.

(** [int(os.getenv("QDRANT_PORT", "6333"))]. *)
Definition parse_port (v : option (parsed Z)) : result Z :=
  match v with
  | None => Ok 6333%Z
  | Some (Parses z) => Ok z
  | Some (NoParse raw) =>
      Err (PyExc "ValueError" ("invalid literal for int() with base 10: '" ++ raw ++ "'"))
  end.

Record ContentModerationService := mk_moderator { threshold : Q }.

(** [score > threshold] on two doubles. *)
Definition py_gt (a b : Q) : bool := negb (Qle_bool a b).

Definition is_unsafe_label (l : string) : bool := existsb (String.eqb l) unsafe_labels.

Definition triggers (t : Q) (d : raw_detection) : bool :=
  is_unsafe_label (d_class d) && py_gt (d_score d) t.

Record unsafe_detection := mk_unsafe {
  u_label : string;
  u_confidence : Q;
  u_box : list Z
}.

(** The dict returned by [check_image]. *)
Record verdict := mk_verdict {
  is_safe : bool;
  message : string;
  detections : list unsafe_detection;
  confidence_scores : list (string * Q);
  all_detections : option (list raw_detection);
  error : option string
}.

(** The [for detection in detections] loop. *)
Fixpoint scan (t : Q) (ds : list raw_detection)
  (detected_unsafe : list unsafe_detection) (scores : list (string * Q))
  : list unsafe_detection * list (string * Q) :=
  match ds with
  | [] => (detected_unsafe, scores)
  | d :: ds' =>
      let scores' := dict_set scores (d_class d) (d_score d) in
      let unsafe' := if triggers t d
                     then (detected_unsafe ++ [mk_unsafe (d_class d) (d_score d) (d_box d)])%list
                     else detected_unsafe in
      scan t ds' unsafe' scores'
  end.

(** Lines after the detector call: the verdict from the detections. *)
Definition assess (t : Q) (ds : list raw_detection) : verdict :=
  let '(detected_unsafe, scores) := scan t ds [] [] in
  let safe := Nat.eqb (length detected_unsafe) 0 in
  let msg := if safe then "Image is safe for upload"
             else "Image contains inappropriate content: "
                    ++ String.concat ", " (map u_label detected_unsafe) in
  mk_verdict safe msg detected_unsafe scores (Some ds) None.

(** The [except] branch of [check_image]. *)
Definition moderation_fallback (e : exn) : verdict :=
  mk_verdict true ("Moderation check failed: " ++ str_exn e ++ ". Defaulting to safe.")
             [] [] None (Some (str_exn e)).

(** ** Python operations on JSON values *)

Definition type_name (j : json) : string :=
  match j with
  | JNull => "NoneType" | JBool _ => "bool" | JInt _ => "int" | JFloat _ => "float"
  | JStr _ => "str"
  | JArr _ => "list" | JObj _ => "dict"
  end.

(** [response.json()]. *)
Definition response_json (body : option json) : result json :=
  match body with
  | Some j => Ok j
  | None => Err (PyExc "JSONDecodeError" "Expecting value: line 1 column 1 (char 0)")
  end.

(** [j.get(k, default)]: only a dict has [.get]. *)
Definition py_get (j : json) (k : string) (default : json) : result json :=
  match j with
  | JObj kvs => Ok (match dict_get kvs k with Some v => v | None => default end)
  | _ => Err (PyExc "AttributeError" ("'" ++ type_name j ++ "' object has no attribute 'get'"))
  end.

(** [j[k]] with a [str] key. *)
Definition py_getitem_str (j : json) (k : string) : result json :=
  match j with
  | JObj kvs => match dict_get kvs k with
                | Some v => Ok v
                | None => Err (PyExc "KeyError" ("'" ++ k ++ "'"))
                end
  | JArr _ => Err (PyExc "TypeError" "list indices must be integers or slices, not str")
  | JStr _ => Err (PyExc "TypeError" "string indices must be integers, not 'str'")
  | _ => Err (PyExc "TypeError" ("'" ++ type_name j ++ "' object is not subscriptable"))
  end.

(** [j[0]]. *)
Definition py_getitem_0 (j : json) : result json :=
  match j with
  | JArr (x :: _) => Ok x
  | JArr [] => Err (PyExc "IndexError" "list index out of range")
  | JStr (String c _) => Ok (JStr (String c EmptyString))
  | JStr EmptyString => Err (PyExc "IndexError" "string index out of range")
  | JObj kvs => Err (PyExc "KeyError" "0")
  | _ => Err (PyExc "TypeError" ("'" ++ type_name j ++ "' object is not subscriptable"))
  end.

(** [for m in j]: a list yields its items, a dict its keys, a str its
    characters. *)
Definition py_iter (j : json) : result (list json) :=
  match j with
  | JArr l => Ok l
  | JObj kvs => Ok (map (fun kv => JStr (fst kv)) kvs)
  | JStr s => Ok (map (fun c => JStr (String c EmptyString)) (list_ascii_of_string s))
  | _ => Err (PyExc "TypeError" ("'" ++ type_name j ++ "' object is not iterable"))
  end.

(** [needle in j] for a [str] needle. *)
Definition py_in (needle : string) (j : json) : result bool :=
  match j with
  | JStr s => Ok (str_contains needle s)
  | JArr l => Ok (existsb (fun x => match x with JStr s => String.eqb s needle | _ => false end) l)
  | JObj kvs => Ok (existsb (fun kv => String.eqb (fst kv) needle) kvs)
  | _ => Err (PyExc "TypeError" ("argument of type '" ++ type_name j ++ "' is not iterable"))
  end.

(** [any(f(m) for m in l)], which stops at the first true item. *)
Fixpoint py_any {A} (f : A -> result bool) (l : list A) : result bool :=
  match l with
  | [] => Ok false
  | x :: l' => match f x with
               | Ok true => Ok true
               | Ok false => py_any f l'
               | Err e => Err e
               end
  end.

(** Characters for which [str.isspace] holds (ASCII range). *)
Definition py_isspace (c : Ascii.ascii) : bool :=
  let n := Ascii.nat_of_ascii c in
  ((Nat.leb 9 n && Nat.leb n 13) || (Nat.leb 28 n && Nat.leb n 32))%bool.

Fixpoint lstrip_list (l : list Ascii.ascii) : list Ascii.ascii :=
  match l with
  | c :: l' => if py_isspace c then lstrip_list l' else l
  | [] => []
  end.

(** [s.strip()]. *)
Definition strip (s : string) : string :=
  string_of_list_ascii (rev (lstrip_list (rev (lstrip_list (list_ascii_of_string s))))).

(** [j.strip()]: only a [str] has it. *)
Definition py_strip (j : json) : result string :=
  match j with
  | JStr s => Ok (strip s)
  | _ => Err (PyExc "AttributeError" ("'" ++ type_name j ++ "' object has no attribute 'strip'"))
  end.

(** ** image_description.py: configuration *)

Definition nl : string := String (Ascii.ascii_of_nat 10) EmptyString.

Definition description_prompt : string :=
  "Describe this image in detail for search indexing purposes." ++ nl ++
  "Include: objects, people, actions, setting, colors, text visible, and overall theme." ++ nl ++
  "Keep it concise but comprehensive (2-3 sentences).".

(** The environment variables read at startup. *)
Record env := mk_env {
  IMAGE_DESCRIPTION_PROVIDER : option string;
  OLLAMA_BASE_URL : option string;
  OPENAI_API_KEY : option string;
  OPENAI_VISION_MODEL : option string;
  CONTENT_MODERATION_THRESHOLD : option (parsed Q);
  QDRANT_PORT : option (parsed Z)
}.

Definition getenv (v : option string) (default : string) : string :=
  match v with Some x => x | None => default end.

Record ImageDescriptionService := mk_describer {
  provider : string;
  ollama_url : string;
  ollama_model : string;
  openai_api_key : option string;
  openai_model : string;
  _is_available : bool
}.

Definition is_available (d : ImageDescriptionService) : bool := _is_available d.

(** [if self.openai_api_key:] *)
Definition key_truthy (k : option string) : bool :=
  match k with Some s => truthy s | None => false end.

(** [f"{self.openai_api_key}"] *)
Definition key_str (k : option string) : string :=
  match k with Some s => s | None => "None" end.

Definition tags_url (d : ImageDescriptionService) : string := ollama_url d ++ "/api/tags".

Section Services.
Variable w : world.

(** RGBA is composited on white, other non-RGB modes converted. *)
Definition to_rgb (img : image) : result image :=
  if String.eqb (mode img) "RGBA" then paste_on_white w img
  else if negb (String.eqb (mode img) "RGB") then convert_rgb w img
  else Ok img.

(** The [try] body of [check_image]. *)
Definition check_image_body (m : ContentModerationService) (b : bytes) : M verdict :=
  img <- lift (pil_open w b) ;;
  img <- lift (to_rgb img) ;;
  data <- lift (save_jpeg w img None) ;;
  fs_write temp_path data ;;
  emit (EvDetect temp_path) ;;
  content <- fs_read temp_path ;;
  ds <- lift (nudenet_detect w content) ;;
  fs_remove temp_path ;;
  ret (assess (threshold m) ds).

Definition check_image (m : ContentModerationService) (b : bytes) : M verdict :=
  try_except (check_image_body m b) (fun e => ret (moderation_fallback e)).


(** [ImageDescriptionService.__init__] before the probe. *)
Definition describer_config (e : env) : ImageDescriptionService :=
  mk_describer (getenv (IMAGE_DESCRIPTION_PROVIDER e) "ollama")
               (getenv (OLLAMA_BASE_URL e) "http://localhost:11434")
               "llava"
               (OPENAI_API_KEY e)
               (getenv (OPENAI_VISION_MODEL e) "gpt-4o-mini")
               false.

(** The [try] body of [_check_availability]. *)
Definition check_availability_body (d : ImageDescriptionService) : M bool :=
  if String.eqb (provider d) "openai" then ret (key_truthy (openai_api_key d))
  else if String.eqb (provider d) "ollama" then
    emit (EvHttpGet (tags_url d)) ;;
    match http_get w (tags_url d) with
    | HttpRaise e => raise e
    | HttpResp status body =>
        if (status =? 200)%Z then
          j <- lift (response_json body) ;;
          models <- lift (py_get j "models" (JArr [])) ;;
          ms <- lift (py_iter models) ;;
          has_llava <- lift (py_any (fun m => match py_get m "name" (JStr EmptyString) with
                                              | Ok n => py_in (ollama_model d) n
                                              | Err e => Err e
                                              end) ms) ;;
          ret has_llava
        else ret false
    end
  else ret false.

Definition _check_availability (d : ImageDescriptionService) : M bool :=
  try_except (check_availability_body d) (fun _ => ret false).

(** [ImageDescriptionService()]: the probe runs once and is stored. *)
Definition init_describer (e : env) : M ImageDescriptionService :=
  let d := describer_config e in
  avail <- _check_availability d ;;
  ret (mk_describer (provider d) (ollama_url d) (ollama_model d)
                    (openai_api_key d) (openai_model d) avail).

(** The double [m * 2^-k] nearest to [n / d], ties to even, when the
    quotient [n * 2^k / d] has the integer part [q] and the remainder [r]
    over [dd]. *)
Definition round_at (n d k : Z) : Q :=
  let nn := if (0 <=? k)%Z then (n * 2 ^ k)%Z else n in
  let dd := if (0 <=? k)%Z then d else (d * 2 ^ (- k))%Z in
  let q := (nn / dd)%Z in
  let r := (nn mod dd)%Z in
  let m := if (dd <? 2 * r)%Z || ((2 * r =? dd)%Z && Z.odd q) then (q + 1)%Z else q in
  if (0 <=? k)%Z then Qmake m (Z.to_pos (2 ^ k)) else inject_Z (m * 2 ^ (- k)).

(** [n / d] rounded to a double (53-bit significand, ties to even) for
    [0 <= n] and [0 < d], as Python's [/] and [*] on floats compute it in the
    range of image sizes (no overflow, no subnormals). *)
Definition round_double (n d : Z) : Q :=
  let k0 := (52 - (Z.log2 n - Z.log2 d))%Z in
  if ((n * (if (0 <=? k0)%Z then 2 ^ k0 else 1)) / (d * (if (0 <=? k0)%Z then 1 else 2 ^ (- k0)))
      <? 2 ^ 52)%Z
  then round_at n d (k0 + 1)
  else round_at n d k0.

(** [int(dim * ratio)] with [ratio = max_size / max(image.size)], both
    operations rounded to doubles; [int] truncates, which for the positive
    product is the floor. *)
Definition scale_dim (dim max_size largest : Z) : Z :=
  let ratio := round_double max_size largest in
  Qfloor (round_double (dim * Qnum ratio) (Zpos (Qden ratio))).

(** [if max(image.size) > max_size: image = image.resize(...)] *)
Definition shrink (img : image) (max_size : Z) : result image :=
  let largest := Z.max (width img) (height img) in
  if (max_size <? largest)%Z
  then resize_lanczos w img (scale_dim (width img) max_size largest)
                            (scale_dim (height img) max_size largest)
  else Ok img.

(** Decode, flatten to RGB, shrink and re-encode at quality 85. *)
Definition prepare_jpeg (b : bytes) (max_size : Z) : result bytes :=
  match pil_open w b with
  | Err e => Err e
  | Ok img =>
      match to_rgb img with
      | Err e => Err e
      | Ok img => match shrink img max_size with
                  | Err e => Err e
                  | Ok img => save_jpeg w img (Some 85%Z)
                  end
      end
  end.

Definition post (r : http_request) : M http_outcome :=
  emit (EvHttpPost (request_url r)) ;; ret (http_post w r).

Definition _generate_with_openai (d : ImageDescriptionService) (b : bytes) : M string :=
  try_except
    (buf <- lift (prepare_jpeg b 1024) ;;
     resp <- post (ReqOpenAIChat (key_str (openai_api_key d)) (openai_model d)
                                 description_prompt buf 300) ;;
     match resp with
     | HttpRaise e => raise e
     | HttpResp status body =>
         if (status =? 200)%Z then
           j <- lift (response_json body) ;;
           c <- lift (py_getitem_str j "choices") ;;
           c0 <- lift (py_getitem_0 c) ;;
           m <- lift (py_getitem_str c0 "message") ;;
           t <- lift (py_getitem_str m "content") ;;
           lift (py_strip t)
         else ret "Failed to generate image description"
     end)
    (fun e => ret ("Error with OpenAI: " ++ str_exn e)).

Definition _generate_with_ollama (d : ImageDescriptionService) (b : bytes) : M string :=
  try_except
    (buf <- lift (prepare_jpeg b 512) ;;
     resp <- post (ReqOllamaGenerate (ollama_url d ++ "/api/generate") (ollama_model d)
                                     description_prompt buf) ;;
     match resp with
     | HttpRaise e => raise e
     | HttpResp status body =>
         if (status =? 200)%Z then
           j <- lift (response_json body) ;;
           t <- lift (py_get j "response" (JStr EmptyString)) ;;
           lift (py_strip t)
         else ret "Failed to generate image description"
     end)
    (fun e => ret ("Error with Ollama: " ++ str_exn e)).

Definition generate_description (d : ImageDescriptionService) (b : bytes) : M string :=
  emit EvGenerateDescription ;;
  try_except
    (if negb (_is_available d)
     then ret ("Image description unavailable - " ++ provider d ++ " service not configured")
     else if String.eqb (provider d) "openai" then _generate_with_openai d b
     else if String.eqb (provider d) "ollama" then _generate_with_ollama d b
     else ret "Unknown image description provider")
    (fun e => ret ("Error generating description: " ++ str_exn e)).

(** ** vector_search.py *)

Record VectorSearchService := mk_vs {
  embedding_model : bool;   (** [self.embedding_model is not None] *)
  qdrant_client : bool;     (** [self.qdrant_client is not None] *)
  vs_available : bool;      (** [self._is_available] *)
  collection_name : string
}.

Definition get_collections : M (list string) :=
  fun s => match qdrant_up w with
           | Some e => (Err e, s)
           | None => (Ok (map fst (collections s)), s)
           end.

Definition create_collection (name : string) : M unit :=
  fun s => match qdrant_up w with
           | Some e => (Err e, s)
           | None =>
               match qdrant_create_error w with
               | Some e => (Err e, s)
               | None => (Ok tt, mk_st (fs s) (dict_set (collections s) name []) (uuid_next s) (trace s))
               end
           end.

(** [VectorSearchService()]: [int(QDRANT_PORT)] may raise before
    [_initialize]; the fields are set as far as [_initialize] gets before an
    exception. *)
Definition init_vector_search (e : env) : M VectorSearchService :=
  let coll := "asset_images" in
  _port <- lift (parse_port (QDRANT_PORT e)) ;;
  match clip_load w with
  | Err _ => ret (mk_vs false false false coll)
  | Ok _ =>
      match qdrant_connect w with
      | Err _ => ret (mk_vs true false false coll)
      | Ok _ =>
          try_except
            (names <- get_collections ;;
             (if existsb (String.eqb coll) names then ret tt else create_collection coll) ;;
             ret (mk_vs true true true coll))
            (fun _ => ret (mk_vs true true false coll))
      end
  end.

Definition generate_embedding (vs : VectorSearchService) (text : string) : M (list Q) :=
  emit (EvGenerateEmbedding text) ;;
  try_except
    (if negb (embedding_model vs)
     then raise (PyExc "Exception" "Embedding model not initialized")
     else emit (EvEncode text) ;; lift (clip_encode w text))
    (fun e => raise e).

(** [str(uuid.uuid4())] *)
Definition fresh_uuid : M string :=
  fun s => (Ok (uuid4 w (uuid_next s)), mk_st (fs s) (collections s) (S (uuid_next s)) (trace s)).

(** Qdrant's upsert of one point: the point with the same id is replaced,
    otherwise the point is appended. *)
Fixpoint upsert_point (pts : list point) (p : point) : list point :=
  match pts with
  | [] => [p]
  | q :: pts' => if String.eqb (pid q) (pid p) then p :: pts' else q :: upsert_point pts' p
  end.

Definition qdrant_upsert (coll : string) (p : point) : M unit :=
  fun s => match qdrant_up w with
           | Some e => (Err e, s)
           | None =>
               match dict_get (collections s) coll with
               | None => (Err (PyExc "UnexpectedResponse" ("Collection `" ++ coll ++ "` doesn't exist!")), s)
               | Some pts =>
                   (Ok tt, mk_st (fs s) (dict_set (collections s) coll (upsert_point pts p))
                                 (uuid_next s) (trace s ++ [EvUpsert (pid p)]))
               end
           end.

Definition qdrant_query (coll : string) (v : list Q) (limit : Z) : M (list scored_point) :=
  fun s => match qdrant_up w with
           | Some e => (Err e, s)
           | None =>
               if (limit <? 1)%Z then
                 (Err (PyExc "UnexpectedResponse"
                             "Unexpected Response: 400 (Bad Request)"), s)
               else
               match dict_get (collections s) coll with
               | None => (Err (PyExc "UnexpectedResponse" ("Collection `" ++ coll ++ "` doesn't exist!")), s)
               | Some pts => (Ok (qdrant_rank w pts v limit),
                              mk_st (fs s) (collections s) (uuid_next s) (trace s ++ [EvQuery limit]))
               end
           end.

(** [{"asset_id": asset_id, "description": description, **metadata}] *)
Definition index_payload (asset_id description : string) (metadata : list (string * string))
  : list (string * string) :=
  fold_left (fun d kv => dict_set d (fst kv) (snd kv)) metadata
            [("asset_id", asset_id); ("description", description)].

Definition index_asset (vs : VectorSearchService) (asset_id description : string)
  (embedding : list Q) (metadata : list (string * string)) : M unit :=
  try_except
    (if negb (qdrant_client vs) then raise (PyExc "Exception" "Qdrant client not initialized")
     else
       id <- fresh_uuid ;;
       qdrant_upsert (collection_name vs)
                     (mk_point id embedding (index_payload asset_id description metadata)))
    (fun e => raise e).

(** One formatted hit of [search]. *)
Record hit := mk_hit {
  h_asset_id : option string;
  h_score : Q;
  h_description : string;
  h_workspace : string;
  h_name : string
}.

Definition payload_get (p : list (string * string)) (k default : string) : string :=
  match dict_get p k with Some v => v | None => default end.

Definition format_point (p : scored_point) : hit :=
  mk_hit (dict_get (sp_payload p) "asset_id") (sp_score p)
         (payload_get (sp_payload p) "description" EmptyString)
         (payload_get (sp_payload p) "workspace" EmptyString)
         (payload_get (sp_payload p) "name" EmptyString).

Definition search (vs : VectorSearchService) (query : string) (limit : Z) : M (list hit) :=
  try_except
    (if negb (qdrant_client vs) || negb (embedding_model vs)
     then raise (PyExc "Exception" "Vector search not available")
     else
       qe <- generate_embedding vs query ;;
       pts <- qdrant_query (collection_name vs) qe limit ;;
       ret (map format_point pts))
    (fun e => raise e).

(** ** main.py *)

Record AnalysisResponse := mk_analysis {
  ar_is_safe : bool;
  ar_description : option string;
  ar_embedding : option (list Q);
  ar_moderation_details : verdict
}.

Record SearchResult := mk_search_result {
  sr_asset_id : string;
  sr_score : Q;
  sr_description : string
}.

(** The three module-level service objects. *)
Record App := mk_app {
  content_moderator : ContentModerationService;
  image_descriptor : ImageDescriptionService;
  vector_search : VectorSearchService
}.

(** [except Exception as e: raise HTTPException(status_code=500, detail=str(e))] *)
Definition http_500 {A} (m : M A) : M A :=
  try_except m (fun e => raise (HTTPException 500 (str_exn e))).

Definition analyze_image (app : App) (image_bytes : bytes) : M AnalysisResponse :=
  http_500
    (moderation_result <- check_image (content_moderator app) image_bytes ;;
     if negb (is_safe moderation_result)
     then ret (mk_analysis false None None moderation_result)
     else
       if is_available (image_descriptor app) then
         description <- generate_description (image_descriptor app) image_bytes ;;
         if vs_available (vector_search app) && truthy description then
           embedding <- generate_embedding (vector_search app) description ;;
           ret (mk_analysis true (Some description) (Some embedding) moderation_result)
         else ret (mk_analysis true (Some description) None moderation_result)
       else ret (mk_analysis true None None moderation_result)).

Definition moderate_image (app : App) (image_bytes : bytes) : M (bool * string * verdict) :=
  http_500
    (result <- check_image (content_moderator app) image_bytes ;;
     ret (is_safe result, message result, result)).

Definition describe_image (app : App) (image_bytes : bytes) : M string :=
  http_500
    (if negb (is_available (image_descriptor app))
     then raise (HTTPException 503 "Image description service unavailable")
     else generate_description (image_descriptor app) image_bytes).

(** [SearchResult(asset_id=r["asset_id"], ...)]: pydantic refuses a
    missing asset id. *)
Definition to_search_result (h : hit) : result SearchResult :=
  match h_asset_id h with
  | Some a => Ok (mk_search_result a (h_score h) (h_description h))
  | None => Err (PyExc "ValidationError" "asset_id: Input should be a valid string")
  end.

Fixpoint map_result {A B} (f : A -> result B) (l : list A) : result (list B) :=
  match l with
  | [] => Ok []
  | x :: l' => match f x with
               | Err e => Err e
               | Ok y => match map_result f l' with
                         | Err e => Err e
                         | Ok ys => Ok (y :: ys)
                         end
               end
  end.

Definition search_similar (app : App) (query : string) (limit : Z) : M (list SearchResult) :=
  http_500
    (if negb (vs_available (vector_search app))
     then raise (HTTPException 503 "Vector search service unavailable")
     else
       results <- search (vector_search app) query limit ;;
       lift (map_result to_search_result results)).

Definition index_asset_endpoint (app : App) (asset_id description workspace name : string)
  : M (bool * string) :=
  http_500
    (if negb (vs_available (vector_search app))
     then raise (HTTPException 503 "Vector search service unavailable")
     else
       embedding <- generate_embedding (vector_search app) description ;;
       index_asset (vector_search app) asset_id description embedding
                   [("workspace", workspace); ("name", name)] ;;
       ret (true, asset_id)).

(** [/health]: the cached flags. *)
Definition health_check (app : App) : bool * bool :=
  (is_available (image_descriptor app), vs_available (vector_search app)).

(** [ContentModerationService()]: the threshold is converted first, then
    the detector is created; a failure of either is raised. *)
Definition init_moderator (e : env) : M ContentModerationService :=
  t <- lift (parse_threshold (CONTENT_MODERATION_THRESHOLD e)) ;;
  match nudenet_init w with
  | Err ex => raise ex
  | Ok _ => ret (mk_moderator t)
  end.

(** Module import: the three services in the order of [main.py]. *)
Definition startup (e : env) : M App :=
  m <- init_moderator e ;;
  d <- init_describer e ;;
  vs <- init_vector_search e ;;
  ret (mk_app m d vs).

Inductive request :=
| ReqHealth
| ReqAnalyze (b : bytes)
| ReqModerate (b : bytes)
| ReqDescribe (b : bytes)
| ReqSearch (query : string) (limit : Z)
| ReqIndex (asset_id description workspace name : string).

Inductive response :=
| RespHealth (desc_ready vs_ready : bool)
| RespAnalysis (r : AnalysisResponse)
| RespModerate (r : bool * string * verdict)
| RespDescribe (description : string)
| RespSearch (r : list SearchResult)
| RespIndex (r : bool * string).

Definition fmap {A B} (f : A -> B) (m : M A) : M B := x <- m ;; ret (f x).

Definition handle (app : App) (r : request) : M response :=
  match r with
  | ReqHealth => let '(a, b) := health_check app in ret (RespHealth a b)
  | ReqAnalyze b => fmap RespAnalysis (analyze_image app b)
  | ReqModerate b => fmap RespModerate (moderate_image app b)
  | ReqDescribe b => fmap RespDescribe (describe_image app b)
  | ReqSearch q l => fmap RespSearch (search_similar app q l)
  | ReqIndex a d ws n => fmap RespIndex (index_asset_endpoint app a d ws n)
  end.

(** The server answers each request in turn; an error response does not stop
    it. *)
Definition catch_result {A} (m : M A) : M (result A) :=
  fun s => match m s with (r, s') => (Ok r, s') end.

Fixpoint serve (app : App) (rs : list request) : M (list (result response)) :=
  match rs with
  | [] => ret []
  | r :: rs' => x <- catch_result (handle app r) ;; xs <- serve app rs' ;; ret (x :: xs)
  end.

(** The whole process: startup, then the requests. *)
Definition run_process (e : env) (rs : list request) : M (App * list (result response)) :=
  app <- startup e ;; out <- serve app rs ;; ret (app, out).

End Services.

(** ** Concrete configurations used to run the code *)

Definition img0 : image := mk_image "RGB" 64 48 [].

Definition uuid_of (n : nat) : string := "uuid-" ++ Z_to_string (Z.of_nat n).

(** A world in which decoding and encoding succeed; the detector, the two
    HTTP servers and the CLIP encoder answer as given. *)
Definition test_world (dets : result (list raw_detection)) (get_resp post_resp : http_outcome)
  (enc : result (list Q)) : world :=
  {| pil_open := fun _ => Ok img0;
     paste_on_white := fun i => Ok i;
     convert_rgb := fun i => Ok i;
     resize_lanczos := fun i _ _ => Ok i;
     save_jpeg := fun _ _ => Ok [Byte.x01];
     nudenet_init := Ok tt;
     nudenet_detect := fun _ => dets;
     http_get := fun _ => get_resp;
     http_post := fun _ => post_resp;
     clip_load := Ok tt;
     clip_encode := fun _ => enc;
     qdrant_connect := Ok tt;
     qdrant_up := None;
     qdrant_create_error := None;
     qdrant_rank := fun _ _ _ => [];
     uuid4 := uuid_of |}.

Definition st0 : st := mk_st [] [("asset_images", [])] 0 [].

(** The doubles 0.3 and 0.9. *)
Definition float_0_3 : Q := Qmake 5404319552844595 (2 ^ 54).
Definition float_0_9 : Q := Qmake 8106479329266893 (2 ^ 53).

Definition ollama_describer (avail : bool) : ImageDescriptionService :=
  mk_describer "ollama" "http://localhost:11434" "llava" None "gpt-4o-mini" avail.

Definition vs_ready : VectorSearchService := mk_vs true true true "asset_images".

Definition app_of (d : ImageDescriptionService) (vs : VectorSearchService) : App :=
  mk_app (mk_moderator (threshold_of_env None)) d vs.

(** A detector that finds an exposed breast at 0.9. *)
Definition w_unsafe : world :=
  test_world (Ok [mk_raw "EXPOSED_BREAST_F" float_0_9 []]) (HttpResp 200 None)
             (HttpResp 200 None) (Ok []).

Definition app_ollama : App := app_of (ollama_describer true) vs_ready.

(** A clean image; Ollama answers [/api/generate] with status 500; CLIP works. *)
Definition w_post_fail : world :=
  test_world (Ok []) (HttpResp 200 None) (HttpResp 500 None) (Ok [1]).

(** A clean image; Ollama describes it; CLIP fails. *)
Definition w_embed_fail : world :=
  test_world (Ok []) (HttpResp 200 None)
             (HttpResp 200 (Some (JObj [("response", JStr " a cat on a sofa ")])))
             (Err (PyExc "RuntimeError" "CUDA out of memory")).

(** The cloud provider selected without [OPENAI_API_KEY], and a vector
    store that failed to initialise. *)
Definition env_openai_nokey : env := mk_env (Some "openai") None None None None None.

Definition app_unconfigured : App :=
  app_of (mk_describer "openai" "http://localhost:11434" "llava" None "gpt-4o-mini" false)
         (mk_vs true false false "asset_images").

(** ** Identifiers drawn by [uuid.uuid4] *)

Fixpoint distinct_strings (l : list string) : bool :=
  match l with
  | [] => true
  | x :: l' => negb (existsb (String.eqb x) l') && distinct_strings l'
  end.

(** The first [n] draws of [uuid.uuid4()] are pairwise different. *)
Definition draws_distinct (w : world) (n : nat) : bool :=
  distinct_strings (map (uuid4 w) (seq 0 n)).

(** Every point of [pts] carries an identifier drawn before the state [s]. *)
Definition ids_drawn (w : world) (s : st) (pts : list point) : bool :=
  forallb (fun p => existsb (fun k => String.eqb (pid p) (uuid4 w k)) (seq 0 (uuid_next s))) pts.

(** Two different uploads. *)
Definition upload_a : bytes := [Byte.x00].
Definition upload_b : bytes := [Byte.x01].

(** ** Footprints: which calls a computation may issue *)

Definition only_events (P : event -> Prop) {A} (m : M A) : Prop :=
  forall s r s', m s = (r, s') -> exists l, trace s' = (trace s ++ l)%list /\ Forall P l.

(** Calls to the description or embedding provider. *)
Definition provider_call (ev : event) : Prop :=
  match ev with
  | EvGenerateDescription | EvHttpPost _ | EvGenerateEmbedding _ | EvEncode _ => True
  | _ => False
  end.

(** File-system and detector calls on the temporary file. *)
Definition on_temp_file (ev : event) : Prop :=
  match ev with
  | EvFsWrite p | EvFsRead p | EvFsRemove p | EvDetect p => p = temp_path
  | _ => False
  end.

Definition probe_call (ev : event) : Prop :=
  match ev with EvHttpGet _ => True | _ => False end.

(** ** vector_search.py: [delete_asset] *)

Section Delete.
Variable w : world.

(** [FieldCondition(key="asset_id", match=MatchValue(value=a))]: a point
    matches when its payload holds that asset id. *)
Definition matches_asset (a : string) (p : point) : bool :=
  match dict_get (payload p) "asset_id" with
  | Some v => String.eqb v a
  | None => false
  end.

(** Qdrant's delete by filter: the matching points are removed. *)
Definition qdrant_delete (coll a : string) : M unit :=
  fun s => match qdrant_up w with
           | Some e => (Err e, s)
           | None =>
               match dict_get (collections s) coll with
               | None => (Err (PyExc "UnexpectedResponse" ("Collection `" ++ coll ++ "` doesn't exist!")), s)
               | Some pts =>
                   (Ok tt, mk_st (fs s)
                                 (dict_set (collections s) coll
                                           (filter (fun p => negb (matches_asset a p)) pts))
                                 (uuid_next s) (trace s))
               end
           end.

Definition delete_asset (vs : VectorSearchService) (asset_id : string) : M unit :=
  try_except
    (if negb (qdrant_client vs) then raise (PyExc "Exception" "Qdrant client not initialized")
     else qdrant_delete (collection_name vs) asset_id)
    (fun e => raise e).

End Delete.

(** ** Reading the results *)

(** The score of the last detection carrying label [l]. *)
Fixpoint last_score (l : string) (ds : list raw_detection) : option Q :=
  match ds with
  | [] => None
  | d :: ds' =>
      match last_score l ds' with
      | Some q => Some q
      | None => if String.eqb (d_class d) l then Some (d_score d) else None
      end
  end.

(** The value of the last pair with key [k]. *)
Fixpoint last_value {V} (k : string) (kvs : list (string * V)) : option V :=
  match kvs with
  | [] => None
  | (k', v) :: kvs' =>
      match last_value k kvs' with
      | Some x => Some x
      | None => if String.eqb k' k then Some v else None
      end
  end.

(** An entry of the [models] list of [/api/tags] on which [m.get("name", "")]
    and the [in] test succeed: a dict whose name, if any, is a string. *)
Definition model_well_formed (m : json) : bool :=
  match m with
  | JObj kvs => match dict_get kvs "name" with
                | None | Some (JStr _) => true
                | Some _ => false
                end
  | _ => false
  end.

Definition model_name (m : json) : string :=
  match m with
  | JObj kvs => match dict_get kvs "name" with Some (JStr n) => n | _ => EmptyString end
  | _ => EmptyString
  end.

Definition has_asset_id (p : scored_point) : bool :=
  match dict_get (sp_payload p) "asset_id" with Some _ => true | None => false end.

(** The text at [choices[0].message.content] of an OpenAI reply, when the
    reply has one. *)
Definition openai_content (j : json) : option string :=
  match j with
  | JObj kvs =>
      match dict_get kvs "choices" with
      | Some (JArr (JObj c :: _)) =>
          match dict_get c "message" with
          | Some (JObj m) =>
              match dict_get m "content" with
              | Some (JStr t) => Some t
              | _ => None
              end
          | _ => None
          end
      | _ => None
      end
  | _ => None
  end.

(** ** More configurations *)

Definition with_nudenet_init (w0 : world) (r : result unit) : world :=
  mk_world (pil_open w0) (paste_on_white w0) (convert_rgb w0) (resize_lanczos w0)
           (save_jpeg w0) r (nudenet_detect w0) (http_get w0) (http_post w0)
           (clip_load w0) (clip_encode w0) (qdrant_connect w0) (qdrant_up w0)
           (qdrant_create_error w0) (qdrant_rank w0) (uuid4 w0).

Definition with_rank (w0 : world) (f : list point -> list Q -> Z -> list scored_point) : world :=
  mk_world (pil_open w0) (paste_on_white w0) (convert_rgb w0) (resize_lanczos w0)
           (save_jpeg w0) (nudenet_init w0) (nudenet_detect w0) (http_get w0) (http_post w0)
           (clip_load w0) (clip_encode w0) (qdrant_connect w0) (qdrant_up w0)
           (qdrant_create_error w0) f (uuid4 w0).

Definition with_create_error (w0 : world) (r : option exn) : world :=
  mk_world (pil_open w0) (paste_on_white w0) (convert_rgb w0) (resize_lanczos w0)
           (save_jpeg w0) (nudenet_init w0) (nudenet_detect w0) (http_get w0) (http_post w0)
           (clip_load w0) (clip_encode w0) (qdrant_connect w0) (qdrant_up w0)
           r (qdrant_rank w0) (uuid4 w0).

(** A store without any collection. *)
Definition st_empty : st := mk_st [] [] 0 [].

(** Qdrant returns the stored points in order, with score 1. *)
Definition rank_all (pts : list point) (_ : list Q) (limit : Z) : list scored_point :=
  firstn (Z.to_nat limit) (map (fun p => mk_scored (payload p) 1) pts).

Definition env_default : env := mk_env None None None None None None.

(** Ollama lists the given models; the other services answer normally. *)
Definition w_tags (ms : list json) : world :=
  test_world (Ok []) (HttpResp 200 (Some (JObj [("models", JArr ms)])))
             (HttpResp 200 (Some (JObj [("response", JStr " a cat ")]))) (Ok [1]).

(** The detector raises after the temporary file was written. *)
Definition w_detect_fail : world :=
  test_world (Err (PyExc "RuntimeError" "ONNX runtime error")) (HttpResp 200 None)
             (HttpResp 200 None) (Ok [1]).

(** OpenAI answers with an empty [choices] list. *)
Definition w_no_choices : world :=
  test_world (Ok []) (HttpResp 200 None) (HttpResp 200 (Some (JObj [("choices", JArr [])])))
             (Ok [1]).

Definition openai_describer : ImageDescriptionService :=
  mk_describer "openai" "http://localhost:11434" "llava" (Some "sk-test") "gpt-4o-mini" true.

Definition env_openai_key : env := mk_env (Some "openai") None (Some "sk-test") None None None.

(** A store holding an unrelated file at the temporary path and one other
    file. *)
Definition st_files : st :=
  mk_st [(temp_path, [Byte.x07]); ("/srv/keep.txt", [Byte.x02])] [("asset_images", [])] 0 [].

(** One record of asset "A" and one of asset "B". *)
Definition st_two_assets : st :=
  mk_st [] [("asset_images",
             [mk_point "p0" [1] [("asset_id", "A"); ("description", "a cat")];
              mk_point "p1" [2] [("asset_id", "B"); ("description", "a dog")]])] 2 [].

(** ** Lemmas on the monad *)

Lemma oe_ret P A (a : A) : only_events P (ret a).
Proof. intros s r s' H. inversion H; subst. exists []. rewrite app_nil_r. auto. Qed.

Lemma oe_raise P A (e : exn) : only_events P (@raise A e).
Proof. intros s r s' H. inversion H; subst. exists []. rewrite app_nil_r. auto. Qed.

Lemma oe_lift P A (x : result A) : only_events P (lift x).
Proof. intros s r s' H. inversion H; subst. exists []. rewrite app_nil_r. auto. Qed.

Lemma oe_emit (P : event -> Prop) ev : P ev -> only_events P (emit ev).
Proof. intros HP s r s' H. inversion H; subst. exists [ev]. simpl. auto. Qed.

Lemma oe_bind P A B (m : M A) (k : A -> M B) :
  only_events P m -> (forall a, only_events P (k a)) -> only_events P (bind m k).
Proof.
  intros Hm Hk s r s' H. unfold bind in H.
  destruct (m s) as [[a|e] s1] eqn:E.
  - destruct (Hm _ _ _ E) as [l1 [T1 F1]]. destruct (Hk a _ _ _ H) as [l2 [T2 F2]].
    exists (l1 ++ l2)%list. rewrite T2, T1, app_assoc. split; auto. apply Forall_app; auto.
  - inversion H; subst. eauto.
Qed.

Lemma oe_try P A (m : M A) (h : exn -> M A) :
  only_events P m -> (forall e, only_events P (h e)) -> only_events P (try_except m h).
Proof.
  intros Hm Hh s r s' H. unfold try_except in H.
  destruct (m s) as [[a|e] s1] eqn:E.
  - inversion H; subst. eauto.
  - destruct (Hm _ _ _ E) as [l1 [T1 F1]]. destruct (Hh e _ _ _ H) as [l2 [T2 F2]].
    exists (l1 ++ l2)%list. rewrite T2, T1, app_assoc. split; auto. apply Forall_app; auto.
Qed.

Lemma oe_fs_write (P : event -> Prop) p d : P (EvFsWrite p) -> only_events P (fs_write p d).
Proof. intros HP s r s' H. inversion H; subst. exists [EvFsWrite p]. simpl. auto. Qed.

Lemma oe_fs_read (P : event -> Prop) p : P (EvFsRead p) -> only_events P (fs_read p).
Proof.
  intros HP s r s' H. unfold fs_read in H. destruct (dict_get (fs s) p);
  inversion H; subst; exists [EvFsRead p]; simpl; auto.
Qed.

Lemma oe_fs_remove (P : event -> Prop) p : P (EvFsRemove p) -> only_events P (fs_remove p).
Proof.
  intros HP s r s' H. unfold fs_remove in H. destruct (dict_get (fs s) p);
  inversion H; subst; exists [EvFsRemove p]; simpl; auto.
Qed.


Lemma oe_fresh_uuid P w : only_events P (fresh_uuid w).
Proof. intros s r s' H. inversion H; subst. exists []. simpl. now rewrite app_nil_r. Qed.

Lemma oe_get_collections P w : only_events P (get_collections w).
Proof.
  intros s r s' H. unfold get_collections in H.
  destruct (qdrant_up w); inversion H; subst; exists []; now rewrite app_nil_r.
Qed.

Lemma oe_create_collection P w c : only_events P (create_collection w c).
Proof.
  intros s r s' H. unfold create_collection in H.
  destruct (qdrant_up w); [|destruct (qdrant_create_error w)];
    inversion H; subst; exists []; simpl; now rewrite app_nil_r.
Qed.

Lemma oe_qdrant_upsert (P : event -> Prop) w c p :
  (forall i, P (EvUpsert i)) -> only_events P (qdrant_upsert w c p).
Proof.
  intros HP s r s' H. unfold qdrant_upsert in H.
  destruct (qdrant_up w); [inversion H; subst; exists []; now rewrite app_nil_r|].
  destruct (dict_get (collections s) c); inversion H; subst; simpl;
    [exists [EvUpsert (pid p)] | exists []]; rewrite ?app_nil_r; auto.
Qed.

Lemma oe_qdrant_query (P : event -> Prop) w c v l :
  (forall k, P (EvQuery k)) -> only_events P (qdrant_query w c v l).
Proof.
  intros HP s r s' H. unfold qdrant_query in H.
  destruct (qdrant_up w); [inversion H; subst; exists []; now rewrite app_nil_r|].
  destruct (l <? 1)%Z; [inversion H; subst; exists []; now rewrite app_nil_r|].
  destruct (dict_get (collections s) c); inversion H; subst; simpl;
    [exists [EvQuery l] | exists []]; rewrite ?app_nil_r; auto.
Qed.

Lemma oe_catch P A (m : M A) : only_events P m -> only_events P (catch_result m).
Proof. intros Hm s r s' H. unfold catch_result in H. destruct (m s) eqn:E. inversion H; subst. eauto. Qed.

Ltac footprint_step :=
  match goal with
  | |- only_events _ (match ?x with _ => _ end) => destruct x
  | |- only_events _ (try_except _ _) => apply oe_try
  | |- only_events _ (bind _ _) => apply oe_bind
  | |- only_events _ (fs_write _ _) => apply oe_fs_write
  | |- only_events _ (fs_read _) => apply oe_fs_read
  | |- only_events _ (fs_remove _) => apply oe_fs_remove
  | |- only_events _ (emit _) => apply oe_emit
  | |- only_events _ (lift _) => apply oe_lift
  | |- only_events _ (ret _) => apply oe_ret
  | |- only_events _ (raise _) => apply oe_raise
  | |- only_events _ (fresh_uuid _) => apply oe_fresh_uuid
  | |- only_events _ (get_collections _) => apply oe_get_collections
  | |- only_events _ (create_collection _ _) => apply oe_create_collection
  | |- only_events _ (qdrant_upsert _ _ _) => apply oe_qdrant_upsert
  | |- only_events _ (qdrant_query _ _ _ _) => apply oe_qdrant_query
  | |- forall _, _ => intro
  end.

Ltac footprint :=
  repeat first [ footprint_step | solve [auto] | progress (simpl; tauto) ].

Section Footprints.
Variable P : event -> Prop.
Variable w : world.

Lemma check_image_events m b :
  (forall p, P (EvFsWrite p)) -> (forall p, P (EvFsRead p)) -> (forall p, P (EvFsRemove p)) ->
  (forall p, P (EvDetect p)) -> only_events P (check_image w m b).
Proof. intros. unfold check_image, check_image_body. footprint. Qed.

Lemma generate_description_events d b :
  P EvGenerateDescription -> (forall u, P (EvHttpPost u)) ->
  only_events P (generate_description w d b).
Proof.
  intros. unfold generate_description, _generate_with_openai, _generate_with_ollama, post.
  footprint.
Qed.

Lemma generate_embedding_events vs t :
  (forall t, P (EvGenerateEmbedding t)) -> (forall t, P (EvEncode t)) ->
  only_events P (generate_embedding w vs t).
Proof. intros. unfold generate_embedding. footprint. Qed.

End Footprints.

Lemma check_image_footprint w m b : only_events (fun ev => ~ provider_call ev) (check_image w m b).
Proof. apply check_image_events; simpl; tauto. Qed.

(** The request handlers never probe the description provider. *)
Lemma handle_no_probe w app r : only_events (fun ev => ~ probe_call ev) (handle w app r).
Proof.
  assert (HC : forall m b, only_events (fun ev => ~ probe_call ev) (check_image w m b))
    by (intros; apply check_image_events; simpl; tauto).
  assert (HD : forall d b, only_events (fun ev => ~ probe_call ev) (generate_description w d b))
    by (intros; apply generate_description_events; simpl; tauto).
  assert (HE : forall vs t, only_events (fun ev => ~ probe_call ev) (generate_embedding w vs t))
    by (intros; apply generate_embedding_events; simpl; tauto).
  destruct r; unfold handle, fmap, analyze_image, moderate_image, describe_image,
    search_similar, index_asset_endpoint, http_500, search, index_asset;
    footprint; auto.
Qed.

Lemma serve_no_probe w app rs : only_events (fun ev => ~ probe_call ev) (serve w app rs).
Proof.
  induction rs as [|r rs IH]; simpl; [apply oe_ret|].
  apply oe_bind; [apply oe_catch, handle_no_probe|]. intros x.
  apply oe_bind; [exact IH|]. intros. apply oe_ret.
Qed.

(** ** content_moderation.py: the decision rule *)

Lemma scan_detected w_t ds acc sc :
  fst (scan w_t ds acc sc)
  = (acc ++ map (fun d => mk_unsafe (d_class d) (d_score d) (d_box d)) (filter (triggers w_t) ds))%list.
Proof.
  revert acc sc. induction ds as [|d ds IH]; intros acc sc; simpl.
  - now rewrite app_nil_r.
  - rewrite IH. destruct (triggers w_t d); simpl; now rewrite <- ?app_assoc.
Qed.

Lemma is_unsafe_label_spec l : is_unsafe_label l = true <-> In l unsafe_labels.
Proof.
  unfold is_unsafe_label. rewrite existsb_exists. split.
  - intros [x [Hx E]]. apply String.eqb_eq in E. now subst.
  - intros H. exists l. split; auto. apply String.eqb_refl.
Qed.

Lemma py_gt_spec a b : py_gt a b = true <-> b < a.
Proof.
  unfold py_gt. rewrite negb_true_iff. split.
  - intros H. apply Qnot_le_lt. intros Hle. apply Qle_bool_iff in Hle. congruence.
  - intros H. destruct (Qle_bool a b) eqn:E; auto. apply Qle_bool_iff in E.
    exfalso. apply (Qlt_not_le b a); auto.
Qed.

Lemma triggers_spec t d :
  triggers t d = true <-> In (d_class d) unsafe_labels /\ t < d_score d.
Proof.
  unfold triggers. rewrite andb_true_iff, is_unsafe_label_spec, py_gt_spec. tauto.
Qed.

Lemma assess_detections t ds :
  detections (assess t ds)
  = map (fun d => mk_unsafe (d_class d) (d_score d) (d_box d)) (filter (triggers t) ds).
Proof.
  unfold assess. pose proof (scan_detected t ds [] []) as H.
  destruct (scan t ds [] []) as [du sc]. simpl in *. exact H.
Qed.

Lemma assess_is_safe t ds :
  is_safe (assess t ds) = Nat.eqb (length (filter (triggers t) ds)) 0.
Proof.
  unfold assess. pose proof (scan_detected t ds [] []) as H.
  destruct (scan t ds [] []) as [du sc]. simpl in *. subst du. now rewrite length_map.
Qed.

(** C4.  A detection counts against the image exactly when its label is one
    of the five unsafe labels and its score is strictly above the threshold
    (0.6 unless configured); the image is safe exactly when no detection
    counts.  A breast detection at 0.3 leaves the image safe, one at 0.9
    makes it unsafe. *)
Theorem assess_unsafe_iff_trigger :
  (forall t d, triggers t d = true <-> In (d_class d) unsafe_labels /\ t < d_score d) /\
  (forall t ds,
      detections (assess t ds)
      = map (fun d => mk_unsafe (d_class d) (d_score d) (d_box d)) (filter (triggers t) ds) /\
      (is_safe (assess t ds) = true <->
       forall d, In d ds -> ~ (In (d_class d) unsafe_labels /\ t < d_score d))) /\
  threshold_of_env None = float_0_6 /\
  is_safe (assess (threshold_of_env None) [mk_raw "EXPOSED_BREAST_F" float_0_3 []]) = true /\
  is_safe (assess (threshold_of_env None) [mk_raw "EXPOSED_BREAST_F" float_0_9 []]) = false /\
  str_contains "EXPOSED_BREAST_F"
    (message (assess (threshold_of_env None) [mk_raw "EXPOSED_BREAST_F" float_0_9 []])) = true.
Proof.
  split; [exact triggers_spec|]. split.
  - intros t ds. split; [apply assess_detections|].
    rewrite assess_is_safe, Nat.eqb_eq, length_zero_iff_nil. split.
    + intros H d Hin Ht. apply triggers_spec in Ht.
      assert (In d (filter (triggers t) ds)) as Hf by (apply filter_In; auto).
      rewrite H in Hf. inversion Hf.
    + intros H. destruct (filter (triggers t) ds) as [|d l] eqn:E; auto.
      assert (In d (filter (triggers t) ds)) as Hf by (rewrite E; left; auto).
      apply filter_In in Hf as [Hin Ht]. apply triggers_spec in Ht. exfalso. apply (H d); auto.
  - repeat split; vm_compute; reflexivity.
Qed.

(** ** content_moderation.py: fail-open *)

(** C2.  Whatever exception the [try] body of [check_image] raises (decoding,
    conversion, saving, detection, removal), [check_image] returns normally
    with [is_safe = True], a message naming the error and no detections; it
    never raises. *)
Theorem check_image_fail_open : forall w m b s,
  (match check_image_body w m b s with
   | (Ok v, s') => check_image w m b s = (Ok v, s')
   | (Err e, s') =>
       check_image w m b s = (Ok (moderation_fallback e), s') /\
       is_safe (moderation_fallback e) = true /\
       message (moderation_fallback e)
         = "Moderation check failed: " ++ str_exn e ++ ". Defaulting to safe." /\
       detections (moderation_fallback e) = [] /\
       error (moderation_fallback e) = Some (str_exn e)
   end) /\
  exists v s', check_image w m b s = (Ok v, s').
Proof.
  intros w m b s. unfold check_image, try_except.
  destruct (check_image_body w m b s) as [[v|e] s'].
  - split; [reflexivity | do 2 eexists; reflexivity].
  - split; [repeat split | do 2 eexists; reflexivity].
Qed.

(** ** main.py: the analyze cascade *)

(** C1.  When the verdict is unsafe, [analyze] answers [is_safe = False] with
    no description and no embedding and the verdict as details, in the state
    the moderation check left: the only calls issued are those of the check,
    none to the description or embedding provider. *)
Theorem analyze_unsafe_short_circuit : forall w app b s v s1,
  check_image w (content_moderator app) b s = (Ok v, s1) ->
  is_safe v = false ->
  analyze_image w app b s = (Ok (mk_analysis false None None v), s1) /\
  exists l, trace s1 = (trace s ++ l)%list /\ Forall (fun ev => ~ provider_call ev) l.
Proof.
  intros w app b s v s1 Hc Hu. split.
  - unfold analyze_image, http_500, try_except, bind. rewrite Hc, Hu. reflexivity.
  - exact (check_image_footprint w _ b s _ _ Hc).
Qed.

Lemma analyze_unsafe_short_circuit_witness :
  exists v s1,
    check_image w_unsafe (content_moderator app_ollama) [] st0 = (Ok v, s1) /\
    is_safe v = false /\
    analyze_image w_unsafe app_ollama [] st0 = (Ok (mk_analysis false None None v), s1).
Proof.
  do 2 eexists. split; [reflexivity|]. split; [reflexivity|].
  exact (proj1 (analyze_unsafe_short_circuit w_unsafe app_ollama [] st0 _ _
                  ltac:(reflexivity) ltac:(reflexivity))).
Defined.

Lemma try_except_total {A} (m : M A) (h : exn -> M A) s :
  (forall e s1, exists x s2, h e s1 = (Ok x, s2)) ->
  exists x s', try_except m h s = (Ok x, s').
Proof.
  intros Hh. unfold try_except. destruct (m s) as [[a|e] s1]; eauto.
Qed.

Lemma generate_description_never_raises w d b s :
  exists x s', generate_description w d b s = (Ok x, s').
Proof.
  unfold generate_description, bind at 1, emit.
  apply try_except_total. intros e s1. unfold ret. eauto.
Qed.

Lemma generate_embedding_emits w vs t s r s' :
  generate_embedding w vs t s = (r, s') -> In (EvGenerateEmbedding t) (trace s').
Proof.
  unfold generate_embedding, bind, emit, try_except, raise, lift. simpl.
  destruct (embedding_model vs); simpl;
    [destruct (clip_encode w t) |]; intros H; inversion H; subst; simpl;
    repeat (rewrite in_app_iff); simpl; tauto.
Qed.

(** C3 (as the code does it).  Once the verdict is safe and the description
    provider is available, [analyze] embeds the text [generate_description]
    returned exactly when the vector service is available and the text is
    non-empty: an empty text ends the cascade with [embedding = None], any
    other text, including the fallback texts of a failed description call,
    goes to [generate_embedding]. *)
Theorem analyze_embeds_nonempty_description : forall w app b s v s1 d s2,
  check_image w (content_moderator app) b s = (Ok v, s1) ->
  is_safe v = true ->
  is_available (image_descriptor app) = true ->
  generate_description w (image_descriptor app) b s1 = (Ok d, s2) ->
  (vs_available (vector_search app) && truthy d = false ->
   analyze_image w app b s = (Ok (mk_analysis true (Some d) None v), s2)) /\
  (vs_available (vector_search app) && truthy d = true ->
   analyze_image w app b s
   = http_500 (embedding <- generate_embedding w (vector_search app) d ;;
               ret (mk_analysis true (Some d) (Some embedding) v)) s2 /\
   exists r s3, analyze_image w app b s = (r, s3) /\ In (EvGenerateEmbedding d) (trace s3)).
Proof.
  intros w app b s v s1 d s2 Hc Hs Ha Hd.
  assert (E : analyze_image w app b s
              = if vs_available (vector_search app) && truthy d
                then http_500 (embedding <- generate_embedding w (vector_search app) d ;;
                               ret (mk_analysis true (Some d) (Some embedding) v)) s2
                else (Ok (mk_analysis true (Some d) None v), s2)).
  { unfold analyze_image, http_500, try_except, bind at 1. rewrite Hc, Hs, Ha. simpl.
    unfold bind at 1. rewrite Hd.
    destruct (vs_available (vector_search app) && truthy d); reflexivity. }
  rewrite E. split; intros H; rewrite H; auto. split; auto.
  unfold http_500, try_except, bind.
  destruct (generate_embedding w (vector_search app) d s2) as [[x|e] s3] eqn:G;
    do 2 eexists; split; try reflexivity; eapply generate_embedding_emits; exact G.
Qed.

Lemma analyze_embeds_nonempty_description_witness :
  exists v s1 d s2,
    check_image w_post_fail (content_moderator app_ollama) [] st0 = (Ok v, s1) /\
    is_safe v = true /\
    is_available (image_descriptor app_ollama) = true /\
    generate_description w_post_fail (image_descriptor app_ollama) [] s1 = (Ok d, s2) /\
    vs_available (vector_search app_ollama) && truthy d = true /\
    exists r s3, analyze_image w_post_fail app_ollama [] st0 = (r, s3) /\
                 In (EvGenerateEmbedding d) (trace s3).
Proof.
  do 4 eexists. split; [reflexivity|]. split; [reflexivity|]. split; [reflexivity|].
  split; [reflexivity|]. split; [reflexivity|].
  exact (proj2 (proj2 (analyze_embeds_nonempty_description w_post_fail app_ollama [] st0 _ _ _ _
           ltac:(reflexivity) ltac:(reflexivity) ltac:(reflexivity) ltac:(reflexivity))
           ltac:(reflexivity))).
Defined.

(** C3 fails: when Ollama answers the description request with status 500,
    the description is the fallback text "Failed to generate image
    description", and [analyze] embeds that text and returns its vector. *)
Lemma analyze_embeds_failure_text :
  exists s',
    analyze_image w_post_fail app_ollama [] st0
    = (Ok (mk_analysis true (Some "Failed to generate image description") (Some [1])
                       (assess float_0_6 [])), s') /\
    In (EvGenerateEmbedding "Failed to generate image description") (trace s').
Proof. eexists. split; [reflexivity | vm_compute; tauto]. Qed.

(** C10.  With a safe verdict and a non-empty description, a failure of the
    embedding call makes the whole [analyze] call fail with status 500 and
    the error text; neither the verdict nor the description is returned. *)
Theorem analyze_embedding_failure_discards : forall w app b s v s1 d s2 e s3,
  check_image w (content_moderator app) b s = (Ok v, s1) ->
  is_safe v = true ->
  is_available (image_descriptor app) = true ->
  generate_description w (image_descriptor app) b s1 = (Ok d, s2) ->
  vs_available (vector_search app) = true ->
  truthy d = true ->
  generate_embedding w (vector_search app) d s2 = (Err e, s3) ->
  analyze_image w app b s = (Err (HTTPException 500 (str_exn e)), s3).
Proof.
  intros w app b s v s1 d s2 e s3 Hc Hs Ha Hd Hv Ht He.
  destruct (analyze_embeds_nonempty_description w app b s v s1 d s2 Hc Hs Ha Hd) as [_ H].
  rewrite Hv, Ht in H. destruct (H eq_refl) as [E _]. rewrite E.
  unfold http_500, try_except, bind. rewrite He. reflexivity.
Qed.

Lemma analyze_embedding_failure_discards_witness :
  exists v s1 d s2 e s3,
    check_image w_embed_fail (content_moderator app_ollama) [] st0 = (Ok v, s1) /\
    is_safe v = true /\
    generate_description w_embed_fail (image_descriptor app_ollama) [] s1 = (Ok d, s2) /\
    truthy d = true /\
    generate_embedding w_embed_fail (vector_search app_ollama) d s2 = (Err e, s3) /\
    analyze_image w_embed_fail app_ollama [] st0 = (Err (HTTPException 500 (str_exn e)), s3).
Proof.
  do 6 eexists. split; [reflexivity|]. split; [reflexivity|]. split; [reflexivity|].
  split; [reflexivity|]. split; [reflexivity|].
  exact (analyze_embedding_failure_discards w_embed_fail app_ollama [] st0 _ _ _ _ _ _
           ltac:(reflexivity) ltac:(reflexivity) ltac:(reflexivity) ltac:(reflexivity)
           ltac:(reflexivity) ltac:(reflexivity) ltac:(reflexivity)).
Defined.

(** ** vector_search.py: embedding failures are surfaced *)

(** C5.  [generate_embedding] raises when the model was not loaded and when
    the encoder fails, and the index and search endpoints turn such a
    failure into an error response (status 500), never into a value. *)
Theorem generate_embedding_fail_closed :
  (forall w vs t s, embedding_model vs = false ->
     exists s', generate_embedding w vs t s
                = (Err (PyExc "Exception" "Embedding model not initialized"), s')) /\
  (forall w vs t s e, embedding_model vs = true -> clip_encode w t = Err e ->
     exists s', generate_embedding w vs t s = (Err e, s')) /\
  (forall w app a dsc ws n s e s', vs_available (vector_search app) = true ->
     generate_embedding w (vector_search app) dsc s = (Err e, s') ->
     index_asset_endpoint w app a dsc ws n s = (Err (HTTPException 500 (str_exn e)), s')) /\
  (forall w app q l s e s', vs_available (vector_search app) = true ->
     generate_embedding w (vector_search app) q s = (Err e, s') ->
     exists msg s'', search_similar w app q l s = (Err (HTTPException 500 msg), s'')).
Proof.
  split; [|split; [|split]].
  - intros w vs t s H. unfold generate_embedding, bind, emit, try_except, raise.
    rewrite H. simpl. eauto.
  - intros w vs t s e H He. unfold generate_embedding, bind, emit, try_except, raise, lift.
    rewrite H. simpl. rewrite He. eauto.
  - intros w app a dsc ws n s e s' Hv He.
    unfold index_asset_endpoint, http_500, try_except, bind at 1. rewrite Hv. simpl.
    unfold bind at 1. rewrite He. reflexivity.
  - intros w app q l s e s' Hv He.
    unfold search_similar, http_500, try_except at 1, bind at 1. rewrite Hv. simpl.
    unfold search, try_except, bind at 1, raise.
    destruct (negb (qdrant_client (vector_search app)) || negb (embedding_model (vector_search app)));
      simpl; [eauto|]. unfold bind at 1. rewrite He. eauto.
Qed.

Lemma generate_embedding_fail_closed_witness :
  (exists s', generate_embedding w_embed_fail (mk_vs false true false "asset_images") "a cat" st0
              = (Err (PyExc "Exception" "Embedding model not initialized"), s')) /\
  (exists s', generate_embedding w_embed_fail vs_ready "a cat" st0
              = (Err (PyExc "RuntimeError" "CUDA out of memory"), s')) /\
  (exists s', index_asset_endpoint w_embed_fail app_ollama "A" "a cat" "ws" "cat.png" st0
              = (Err (HTTPException 500 "CUDA out of memory"), s')) /\
  (exists msg s'', search_similar w_embed_fail app_ollama "a cat" 20 st0
                   = (Err (HTTPException 500 msg), s'')).
Proof.
  destruct generate_embedding_fail_closed as [Ha [Hb [Hc Hd]]].
  split; [|split; [|split]].
  - exact (Ha w_embed_fail (mk_vs false true false "asset_images") "a cat" st0 eq_refl).
  - exact (Hb w_embed_fail vs_ready "a cat" st0 _ eq_refl eq_refl).
  - eexists. exact (Hc w_embed_fail app_ollama "A" "a cat" "ws" "cat.png" st0
                       (PyExc "RuntimeError" "CUDA out of memory") _ eq_refl ltac:(reflexivity)).
  - exact (Hd w_embed_fail app_ollama "a cat" 20%Z st0 (PyExc "RuntimeError" "CUDA out of memory") _
              eq_refl ltac:(reflexivity)).
Defined.

(** ** main.py: unconfigured providers *)

(** C6 (what the code does).  The 503 raised for an unconfigured provider is
    inside the endpoint's [try], so [except Exception] catches it and raises
    a 500 whose detail is the text of the 503: the describe, search and index
    endpoints answer an unconfigured provider with status 500, the status of
    any crash. *)
Theorem unavailable_surfaces_as_500 : forall w app b q l a dsc ws n s,
  is_available (image_descriptor app) = false ->
  vs_available (vector_search app) = false ->
  describe_image w app b s
  = (Err (HTTPException 500 "503: Image description service unavailable"), s) /\
  search_similar w app q l s
  = (Err (HTTPException 500 "503: Vector search service unavailable"), s) /\
  index_asset_endpoint w app a dsc ws n s
  = (Err (HTTPException 500 "503: Vector search service unavailable"), s).
Proof.
  intros w app b q l a dsc ws n s Hd Hv.
  unfold describe_image, search_similar, index_asset_endpoint, http_500, try_except.
  rewrite Hd, Hv. repeat split.
Qed.

Lemma unavailable_surfaces_as_500_witness :
  (exists s, init_describer w_unsafe env_openai_nokey st0 = (Ok (image_descriptor app_unconfigured), s)) /\
  describe_image w_unsafe app_unconfigured [] st0
  = (Err (HTTPException 500 "503: Image description service unavailable"), st0) /\
  search_similar w_unsafe app_unconfigured "a red car" 5 st0
  = (Err (HTTPException 500 "503: Vector search service unavailable"), st0) /\
  index_asset_endpoint w_unsafe app_unconfigured "A" "a cat" "ws" "cat.png" st0
  = (Err (HTTPException 500 "503: Vector search service unavailable"), st0).
Proof.
  split; [eexists; reflexivity|].
  exact (unavailable_surfaces_as_500 w_unsafe app_unconfigured [] "a red car" 5%Z "A" "a cat" "ws"
           "cat.png" st0 eq_refl eq_refl).
Defined.

(** ** vector_search.py: indexing appends a fresh record *)

Lemma dict_get_set_same {V} (d : list (string * V)) k v : dict_get (dict_set d k v) k = Some v.
Proof.
  induction d as [|[k' v'] d IH]; simpl.
  - now rewrite String.eqb_refl.
  - destruct (String.eqb k k') eqn:E; simpl.
    + now rewrite String.eqb_refl.
    + now rewrite E.
Qed.

Lemma upsert_point_fresh pts p :
  (forall q, In q pts -> pid q <> pid p) -> upsert_point pts p = (pts ++ [p])%list.
Proof.
  induction pts as [|q pts IH]; intros H; simpl; auto.
  destruct (String.eqb (pid q) (pid p)) eqn:E.
  - apply String.eqb_eq in E. exfalso. apply (H q); simpl; auto.
  - rewrite IH; auto. intros q' Hq'. apply H. simpl. auto.
Qed.

Lemma distinct_strings_app l1 l2 :
  distinct_strings (l1 ++ l2) = true ->
  (forall x y, In x l1 -> In y l2 -> x <> y) /\ distinct_strings l2 = true.
Proof.
  induction l1 as [|x l1 IH]; simpl; intros H.
  - split; [tauto | exact H].
  - apply andb_true_iff in H as [Hx Hd]. destruct (IH Hd) as [Hxy Hl2]. split; auto.
    intros a b [<-|Ha] Hb; [|now apply Hxy].
    intros ->. apply negb_true_iff in Hx. rewrite <- not_true_iff_false in Hx. apply Hx.
    apply existsb_exists. exists b. split; [apply in_or_app; auto | apply String.eqb_refl].
Qed.

Lemma fresh_draws w s pts :
  ids_drawn w s pts = true -> draws_distinct w (S (S (uuid_next s))) = true ->
  (forall q, In q pts -> pid q <> uuid4 w (uuid_next s) /\ pid q <> uuid4 w (S (uuid_next s))) /\
  uuid4 w (uuid_next s) <> uuid4 w (S (uuid_next s)).
Proof.
  unfold ids_drawn, draws_distinct. intros Hd Hn.
  replace (seq 0 (S (S (uuid_next s)))) with (seq 0 (uuid_next s) ++ [uuid_next s; S (uuid_next s)])%list
    in Hn by (rewrite !seq_S, <- app_assoc; reflexivity).
  rewrite map_app in Hn. apply distinct_strings_app in Hn as [Hxy Hl2]. split.
  - intros q Hq. rewrite forallb_forall in Hd. specialize (Hd q Hq).
    apply existsb_exists in Hd as [k [Hk E]]. apply String.eqb_eq in E. rewrite E.
    split; apply Hxy; try (apply in_map; exact Hk); simpl; auto.
  - simpl in Hl2. intros E. rewrite E, String.eqb_refl in Hl2. discriminate.
Qed.

Lemma index_asset_ok w vs a d e md s s1 pts :
  qdrant_client vs = true ->
  dict_get (collections s) (collection_name vs) = Some pts ->
  index_asset w vs a d e md s = (Ok tt, s1) ->
  qdrant_up w = None /\
  s1 = mk_st (fs s)
             (dict_set (collections s) (collection_name vs)
                       (upsert_point pts (mk_point (uuid4 w (uuid_next s)) e (index_payload a d md))))
             (S (uuid_next s))
             (trace s ++ [EvUpsert (uuid4 w (uuid_next s))]).
Proof.
  intros Hc Hg. unfold index_asset, try_except, bind, fresh_uuid, qdrant_upsert, raise.
  rewrite Hc. simpl. destruct (qdrant_up w) eqn:Q; simpl.
  - intros H. inversion H.
  - rewrite Hg. intros H. inversion H. auto.
Qed.

(** C7.  Each call to [index_asset] stores its point under the next draw of
    [uuid.uuid4()], whatever the asset id: indexing the same asset id twice
    leaves the earlier points, the first record and the second record, under
    two different identifiers. *)
Theorem index_asset_appends_fresh_record :
  forall w vs a d1 d2 e1 e2 md1 md2 s s1 s2 pts,
  qdrant_client vs = true ->
  dict_get (collections s) (collection_name vs) = Some pts ->
  ids_drawn w s pts = true ->
  draws_distinct w (S (S (uuid_next s))) = true ->
  index_asset w vs a d1 e1 md1 s = (Ok tt, s1) ->
  index_asset w vs a d2 e2 md2 s1 = (Ok tt, s2) ->
  dict_get (collections s2) (collection_name vs)
  = Some (pts ++ [mk_point (uuid4 w (uuid_next s)) e1 (index_payload a d1 md1);
                  mk_point (uuid4 w (S (uuid_next s))) e2 (index_payload a d2 md2)])%list /\
  uuid4 w (uuid_next s) <> uuid4 w (S (uuid_next s)).
Proof.
  intros w vs a d1 d2 e1 e2 md1 md2 s s1 s2 pts Hc Hg Hids Hdist H1 H2.
  destruct (fresh_draws w s pts Hids Hdist) as [Hfresh Hne].
  destruct (index_asset_ok w vs a d1 e1 md1 s s1 pts Hc Hg H1) as [_ ->].
  rewrite upsert_point_fresh in H2 by (intros q Hq; simpl; apply Hfresh; auto).
  eapply index_asset_ok in H2; [| exact Hc | simpl; apply dict_get_set_same].
  destruct H2 as [_ ->].
  simpl. rewrite dict_get_set_same. split; auto.
  rewrite upsert_point_fresh, <- app_assoc; auto.
  intros q Hq. apply in_app_or in Hq as [Hq|[<-|[]]]; simpl.
  - apply Hfresh; auto.
  - auto.
Qed.

Lemma index_asset_appends_fresh_record_witness :
  exists s1 s2,
    index_asset w_unsafe vs_ready "A" "a cat" [1] [("workspace", "ws")] st0 = (Ok tt, s1) /\
    index_asset w_unsafe vs_ready "A" "a dog" [2] [("workspace", "ws")] s1 = (Ok tt, s2) /\
    dict_get (collections s2) "asset_images"
    = Some [mk_point "uuid-0" [1] (index_payload "A" "a cat" [("workspace", "ws")]);
            mk_point "uuid-1" [2] (index_payload "A" "a dog" [("workspace", "ws")])] /\
    uuid_of 0 <> uuid_of 1.
Proof.
  do 2 eexists. split; [reflexivity|]. split; [reflexivity|].
  exact (index_asset_appends_fresh_record w_unsafe vs_ready "A" "a cat" "a dog" [1] [2]
           [("workspace", "ws")] [("workspace", "ws")] st0 _ _ [] eq_refl eq_refl
           ltac:(reflexivity) ltac:(vm_compute; reflexivity) ltac:(reflexivity) ltac:(reflexivity)).
Defined.

(** ** image_description.py: the availability probe *)

Lemma check_availability_openai w d s :
  provider d = "openai" -> _check_availability w d s = (Ok (key_truthy (openai_api_key d)), s).
Proof.
  intros H. unfold _check_availability, check_availability_body, try_except, ret.
  rewrite H. reflexivity.
Qed.

Lemma check_availability_ollama w d s :
  provider d = "ollama" ->
  exists b, _check_availability w d s
            = (Ok b, mk_st (fs s) (collections s) (uuid_next s) (trace s ++ [EvHttpGet (tags_url d)])) /\
            (b = true -> exists j, http_get w (tags_url d) = HttpResp 200 (Some j)).
Proof.
  intros H. unfold _check_availability, check_availability_body, try_except, bind, emit,
    lift, raise, ret.
  rewrite H. simpl.
  destruct (http_get w (tags_url d)) as [e|status body]; [exists false; split; auto; discriminate|].
  destruct (status =? 200)%Z eqn:Hs; [|exists false; split; auto; discriminate].
  apply Z.eqb_eq in Hs. subst status.
  destruct body as [j|]; simpl; [|exists false; split; auto; discriminate].
  destruct (py_get j "models" (JArr [])) as [models|e]; [|exists false; split; auto; discriminate].
  destruct (py_iter models) as [ms|e]; [|exists false; split; auto; discriminate].
  match goal with |- context [match ?x with Ok _ => _ | Err _ => _ end] => destruct x as [b|e] end;
    [exists b; split; eauto | exists false; split; auto; discriminate].
Qed.

Lemma check_availability_other w d s :
  provider d <> "openai" -> provider d <> "ollama" -> _check_availability w d s = (Ok false, s).
Proof.
  intros H1 H2. unfold _check_availability, check_availability_body, try_except, ret.
  apply String.eqb_neq in H1, H2. rewrite H1, H2. reflexivity.
Qed.

Lemma check_availability_store w d s r s' :
  _check_availability w d s = (r, s') -> fs s' = fs s /\ collections s' = collections s.
Proof.
  intros H.
  destruct (String.eqb (provider d) "openai") eqn:Eo.
  - apply String.eqb_eq in Eo. rewrite (check_availability_openai w d s Eo) in H.
    inversion H; subst; auto.
  - apply String.eqb_neq in Eo. destruct (String.eqb (provider d) "ollama") eqn:El.
    + apply String.eqb_eq in El. destruct (check_availability_ollama w d s El) as [b [Hc _]].
      rewrite Hc in H. inversion H; subst; auto.
    + apply String.eqb_neq in El. rewrite (check_availability_other w d s Eo El) in H.
      inversion H; subst; auto.
Qed.

Lemma init_vector_search_total w e s :
  match parse_port (QDRANT_PORT e) with
  | Ok _ => exists vs s', init_vector_search w e s = (Ok vs, s')
  | Err ex => init_vector_search w e s = (Err ex, s)
  end.
Proof.
  unfold init_vector_search, bind at 1, lift.
  destruct (parse_port (QDRANT_PORT e)); [|reflexivity].
  destruct (clip_load w); [|unfold ret; eauto]. destruct (qdrant_connect w); [|unfold ret; eauto].
  apply try_except_total. intros. unfold ret. eauto.
Qed.

Lemma init_describer_total w e s : exists d s', init_describer w e s = (Ok d, s').
Proof.
  unfold init_describer, bind, ret.
  destruct (_check_availability w (describer_config e) s) as [[b|ex] s1] eqn:Hc; eauto.
  unfold _check_availability, try_except, ret in Hc.
  destruct (check_availability_body w (describer_config e) s) as [[b'|ex'] s0];
    discriminate Hc.
Qed.

Lemma startup_eq w e s d s1 :
  init_describer w e s = (Ok d, s1) ->
  startup w e s
  = match parse_threshold (CONTENT_MODERATION_THRESHOLD e) with
    | Err ex => (Err ex, s)
    | Ok t =>
        match nudenet_init w with
        | Err ex => (Err ex, s)
        | Ok _ =>
            match init_vector_search w e s1 with
            | (Ok vs, s2) => (Ok (mk_app (mk_moderator t) d vs), s2)
            | (Err ex, s2) => (Err ex, s2)
            end
        end
    end.
Proof.
  intros H. unfold startup, init_moderator, bind, lift, raise, ret.
  destruct (parse_threshold (CONTENT_MODERATION_THRESHOLD e)); [|reflexivity].
  destruct (nudenet_init w); [|reflexivity].
  rewrite H. destruct (init_vector_search w e s1) as [[vs|ex] s2]; reflexivity.
Qed.

(** The outcome of startup once the describer is built. *)
Lemma startup_cases w e s d s1 :
  init_describer w e s = (Ok d, s1) ->
  (forall ex s2, startup w e s = (Err ex, s2) ->
     parse_threshold (CONTENT_MODERATION_THRESHOLD e) = Err ex \/ nudenet_init w = Err ex \/
     parse_port (QDRANT_PORT e) = Err ex) /\
  (forall t u p, parse_threshold (CONTENT_MODERATION_THRESHOLD e) = Ok t -> nudenet_init w = Ok u ->
     parse_port (QDRANT_PORT e) = Ok p ->
     exists vs s2, startup w e s = (Ok (mk_app (mk_moderator t) d vs), s2)).
Proof.
  intros H. rewrite (startup_eq w e s d s1 H).
  pose proof (init_vector_search_total w e s1) as Hv.
  split.
  - intros ex s2 Hs.
    destruct (parse_threshold (CONTENT_MODERATION_THRESHOLD e)) as [t|ex1];
      [|left; congruence].
    destruct (nudenet_init w) as [u|ex2]; [|right; left; congruence].
    right; right.
    destruct (parse_port (QDRANT_PORT e)) as [p|ex3].
    + destruct Hv as [vs [s3 Hv]]. rewrite Hv in Hs. discriminate.
    + rewrite Hv in Hs. congruence.
  - intros t u p Ht Hu Hp. rewrite Ht, Hu. rewrite Hp in Hv.
    destruct Hv as [vs [s2 Hv]]. rewrite Hv. eauto.
Qed.

(** C8.  [ImageDescriptionService()] never raises.  For the cloud provider the
    flag is whether [OPENAI_API_KEY] is set and non-empty, found without any
    network call; for the local provider it costs one GET of [/api/tags] and
    is true only on a status-200 JSON answer (a raised request, another
    status, a body that is not JSON or without the model gives false); any
    other provider gives false.  The probe never makes startup fail: an
    exception of startup is the [ValueError] of [CONTENT_MODERATION_THRESHOLD],
    the failure of the NudeNet detector, or the [ValueError] of
    [QDRANT_PORT]; when none of these occurs startup succeeds with this
    describer.  The requests served afterwards never probe again, so
    [is_available] keeps the flag computed at startup. *)
Theorem describer_probe_cached : forall w e s,
  exists d s',
    init_describer w e s = (Ok d, s') /\
    provider d = getenv (IMAGE_DESCRIPTION_PROVIDER e) "ollama" /\
    (provider d = "openai" -> is_available d = key_truthy (OPENAI_API_KEY e) /\ s' = s) /\
    (provider d = "ollama" ->
       trace s' = (trace s ++ [EvHttpGet (tags_url d)])%list /\
       (is_available d = true -> exists j, http_get w (tags_url d) = HttpResp 200 (Some j))) /\
    (provider d <> "openai" -> provider d <> "ollama" -> is_available d = false /\ s' = s) /\
    (forall ex s'', startup w e s = (Err ex, s'') ->
       parse_threshold (CONTENT_MODERATION_THRESHOLD e) = Err ex \/ nudenet_init w = Err ex \/
       parse_port (QDRANT_PORT e) = Err ex) /\
    (forall t u p, parse_threshold (CONTENT_MODERATION_THRESHOLD e) = Ok t ->
       nudenet_init w = Ok u -> parse_port (QDRANT_PORT e) = Ok p ->
       exists app s'', startup w e s = (Ok app, s'') /\ image_descriptor app = d) /\
    (forall app rs s1 r s2, serve w app rs s1 = (r, s2) ->
       exists l, trace s2 = (trace s1 ++ l)%list /\ Forall (fun ev => ~ probe_call ev) l).
Proof.
  intros w e s.
  set (d0 := describer_config e).
  assert (Hinit : forall b s', _check_availability w d0 s = (Ok b, s') ->
            init_describer w e s
            = (Ok (mk_describer (provider d0) (ollama_url d0) (ollama_model d0)
                                (openai_api_key d0) (openai_model d0) b), s')).
  { intros b s' H. unfold init_describer, bind. fold d0. rewrite H. reflexivity. }
  assert (Hstart : forall d s', init_describer w e s = (Ok d, s') ->
    (forall ex s'', startup w e s = (Err ex, s'') ->
       parse_threshold (CONTENT_MODERATION_THRESHOLD e) = Err ex \/ nudenet_init w = Err ex \/
       parse_port (QDRANT_PORT e) = Err ex) /\
    (forall t u p, parse_threshold (CONTENT_MODERATION_THRESHOLD e) = Ok t ->
       nudenet_init w = Ok u -> parse_port (QDRANT_PORT e) = Ok p ->
       exists app s'', startup w e s = (Ok app, s'') /\ image_descriptor app = d)).
  { intros d s' H. destruct (startup_cases w e s d s' H) as [Ha Hb]. split; [exact Ha|].
    intros t u p Ht Hu Hp. destruct (Hb t u p Ht Hu Hp) as [vs [s2 Hs]].
    exists (mk_app (mk_moderator t) d vs), s2. split; [exact Hs | reflexivity]. }
  assert (Hprov : provider d0 = getenv (IMAGE_DESCRIPTION_PROVIDER e) "ollama") by reflexivity.
  destruct (String.eqb (provider d0) "openai") eqn:Eo.
  - apply String.eqb_eq in Eo.
    pose proof (Hinit _ _ (check_availability_openai w d0 s Eo)) as Hi.
    do 2 eexists. split; [exact Hi|]. cbn [provider is_available _is_available tags_url ollama_url]. split; [exact Hprov|].
    split; [auto|]. split; [intros H; rewrite Eo in H; discriminate|].
    split; [intros H; contradiction|]. split; [exact (proj1 (Hstart _ _ Hi))|]. split; [exact (proj2 (Hstart _ _ Hi))|].
    intros; eapply serve_no_probe; eauto.
  - apply String.eqb_neq in Eo.
    destruct (String.eqb (provider d0) "ollama") eqn:El.
    + apply String.eqb_eq in El.
      destruct (check_availability_ollama w d0 s El) as [b [Hc Hb]].
      pose proof (Hinit _ _ Hc) as Hi.
      do 2 eexists. split; [exact Hi|]. cbn [provider is_available _is_available tags_url ollama_url]. split; [exact Hprov|].
      split; [intros H; contradiction|]. split; [split; [reflexivity | exact Hb]|].
      split; [intros _ H; contradiction|]. split; [exact (proj1 (Hstart _ _ Hi))|]. split; [exact (proj2 (Hstart _ _ Hi))|].
      intros; eapply serve_no_probe; eauto.
    + apply String.eqb_neq in El.
      pose proof (Hinit _ _ (check_availability_other w d0 s Eo El)) as Hi.
      do 2 eexists. split; [exact Hi|]. cbn [provider is_available _is_available tags_url ollama_url]. split; [exact Hprov|].
      split; [intros H; contradiction|]. split; [intros H; contradiction|].
      split; [auto|]. split; [exact (proj1 (Hstart _ _ Hi))|]. split; [exact (proj2 (Hstart _ _ Hi))|].
      intros; eapply serve_no_probe; eauto.
Qed.

Lemma describer_probe_cached_witness :
  exists d s',
    init_describer w_unsafe env_openai_nokey st0 = (Ok d, s') /\ is_available d = false /\ s' = st0.
Proof.
  destruct (describer_probe_cached w_unsafe env_openai_nokey st0)
    as [d [s' [Hi [Hp [Ho _]]]]].
  exists d, s'. split; [exact Hi|]. exact (Ho Hp).
Defined.

(** ** Two moderation checks *)

(** C9 fails: the checks of two different uploads both write the one
    temporary file [/tmp/temp_image.jpg]; it is mutable state shared by all
    requests. *)
Lemma moderation_checks_share_temp_file :
  exists r1 s1 r2 s2,
    check_image w_unsafe (content_moderator app_ollama) upload_a st0 = (r1, s1) /\
    check_image w_unsafe (content_moderator app_ollama) upload_b st0 = (r2, s2) /\
    In (EvFsWrite temp_path) (trace s1) /\ In (EvFsWrite temp_path) (trace s2).
Proof. do 4 eexists. split; [reflexivity|]. split; [reflexivity|]. vm_compute. tauto. Qed.

(** C9 (what the code does).  Every file-system and detector call of
    [check_image] is on the fixed path [/tmp/temp_image.jpg], which each check
    writes before the detector reads it.  The verdict does not depend on the
    state the check starts from; since [check_image] has no suspension point,
    the event loop runs two checks one after the other, and each then gets the
    verdict it gets alone. *)
Theorem moderation_checks_independent :
  (forall w m b, only_events on_temp_file (check_image w m b)) /\
  (forall w m b s s', fst (check_image w m b s) = fst (check_image w m b s')) /\
  (forall w m b1 b2 s,
     fst (check_image w m b2 (snd (check_image w m b1 s))) = fst (check_image w m b2 s) /\
     fst (check_image w m b1 (snd (check_image w m b2 s))) = fst (check_image w m b1 s)).
Proof.
  assert (Hind : forall w m b s s', fst (check_image w m b s) = fst (check_image w m b s')).
  { intros w m b s s'.
    unfold check_image, try_except, check_image_body, bind, lift, fs_write, emit, fs_read,
      fs_remove, ret.
    destruct (pil_open w b); [|reflexivity]. destruct (to_rgb w a); [|reflexivity].
    destruct (save_jpeg w a0 None); [|reflexivity]. simpl. rewrite !dict_get_set_same.
    destruct (nudenet_detect w a1); simpl; [rewrite !dict_get_set_same|]; reflexivity. }
  split; [|split; [exact Hind|]].
  - intros. unfold check_image, check_image_body. footprint; simpl; reflexivity.
  - intros. split; apply Hind.
Qed.

(** * Further properties of the code *)

(** ** Dictionaries *)

Lemma dict_get_set {V} (d : list (string * V)) k v l :
  dict_get (dict_set d k v) l = if String.eqb l k then Some v else dict_get d l.
Proof.
  induction d as [|[k' v'] d IH]; simpl.
  - destruct (String.eqb l k); reflexivity.
  - destruct (String.eqb k k') eqn:E; simpl.
    + apply String.eqb_eq in E. subst k'. destruct (String.eqb l k); reflexivity.
    + rewrite IH. destruct (String.eqb l k') eqn:E2; [|reflexivity].
      apply String.eqb_eq in E2. subst l. rewrite String.eqb_sym, E. reflexivity.
Qed.

Lemma dict_get_filter {V} (d : list (string * V)) p k :
  dict_get (filter (fun kv => negb (String.eqb (fst kv) p)) d) k
  = if String.eqb k p then None else dict_get d k.
Proof.
  induction d as [|[k' v'] d IH]; simpl.
  - destruct (String.eqb k p); reflexivity.
  - destruct (String.eqb k' p) eqn:E; simpl.
    + apply String.eqb_eq in E. subst k'. rewrite IH. destruct (String.eqb k p); reflexivity.
    + rewrite IH. destruct (String.eqb k k') eqn:E2; [|reflexivity].
      apply String.eqb_eq in E2. subst k. rewrite E. reflexivity.
Qed.

(** ** content_moderation.py: the temporary file *)

(** A check whose image cannot be decoded touches no file.  Once the JPEG
    has been written to [/tmp/temp_image.jpg], a check whose detector runs
    removes that path, so a file the host kept there is gone afterwards, and
    leaves every other path as it was; a check whose detector raises answers
    "safe" and leaves the JPEG behind at that path. *)
Theorem check_image_temp_file : forall w m b s,
  (forall e, pil_open w b = Err e -> check_image w m b s = (Ok (moderation_fallback e), s)) /\
  (forall img img' data,
     pil_open w b = Ok img -> to_rgb w img = Ok img' -> save_jpeg w img' None = Ok data ->
     (forall ds, nudenet_detect w data = Ok ds ->
        exists s', check_image w m b s = (Ok (assess (threshold m) ds), s') /\
                   dict_get (fs s') temp_path = None /\
                   forall p, p <> temp_path -> dict_get (fs s') p = dict_get (fs s) p) /\
     (forall e, nudenet_detect w data = Err e ->
        exists s', check_image w m b s = (Ok (moderation_fallback e), s') /\
                   dict_get (fs s') temp_path = Some data /\
                   forall p, p <> temp_path -> dict_get (fs s') p = dict_get (fs s) p)).
Proof.
  intros w m b s.
  unfold check_image, check_image_body, try_except, bind, lift, fs_write, emit, fs_read,
    fs_remove, ret.
  split.
  - intros e H. rewrite H. reflexivity.
  - intros img img' data H1 H2 H3. rewrite H1, H2, H3. simpl. rewrite dict_get_set_same. split.
    + intros ds H4. rewrite H4. simpl. rewrite dict_get_set_same.
      eexists. split; [reflexivity|]. simpl. split.
      * rewrite dict_get_filter, String.eqb_refl. reflexivity.
      * intros p Hp. apply String.eqb_neq in Hp. rewrite dict_get_filter, Hp, dict_get_set, Hp.
        reflexivity.
    + intros e H4. rewrite H4. eexists. split; [reflexivity|]. simpl. split.
      * apply dict_get_set_same.
      * intros p Hp. apply String.eqb_neq in Hp. rewrite dict_get_set, Hp. reflexivity.
Qed.

Lemma check_image_temp_file_witness :
  (exists s', check_image w_unsafe (content_moderator app_ollama) upload_a st_files
              = (Ok (assess float_0_6 [mk_raw "EXPOSED_BREAST_F" float_0_9 []]), s') /\
              dict_get (fs s') temp_path = None /\
              dict_get (fs s') "/srv/keep.txt" = Some [Byte.x02]) /\
  (exists s', check_image w_detect_fail (content_moderator app_ollama) upload_a st_files
              = (Ok (moderation_fallback (PyExc "RuntimeError" "ONNX runtime error")), s') /\
              dict_get (fs s') temp_path = Some [Byte.x01]).
Proof.
  split.
  - destruct (proj2 (check_image_temp_file w_unsafe (content_moderator app_ollama) upload_a st_files)
                img0 img0 [Byte.x01] eq_refl eq_refl eq_refl) as [Hok _].
    destruct (Hok _ eq_refl) as [s' [H1 [H2 H3]]].
    exists s'. split; [exact H1|]. split; [exact H2|].
    rewrite (H3 "/srv/keep.txt" ltac:(discriminate)). reflexivity.
  - destruct (proj2 (check_image_temp_file w_detect_fail (content_moderator app_ollama) upload_a
                       st_files) img0 img0 [Byte.x01] eq_refl eq_refl eq_refl) as [_ Herr].
    destruct (Herr _ eq_refl) as [s' [H1 [H2 _]]].
    exists s'. split; [exact H1 | exact H2].
Defined.

(** ** content_moderation.py: confidence scores *)

Lemma scan_scores t ds acc sc l :
  dict_get (snd (scan t ds acc sc)) l
  = match last_score l ds with Some q => Some q | None => dict_get sc l end.
Proof.
  revert acc sc. induction ds as [|d ds IH]; intros acc sc; simpl; [reflexivity|].
  rewrite IH. destruct (last_score l ds); [reflexivity|].
  rewrite dict_get_set, String.eqb_sym. destruct (String.eqb (d_class d) l); reflexivity.
Qed.

(** [confidence_scores] maps each detected label to the score of its last
    detection: an earlier, higher detection of the same label is
    overwritten, so an image can be reported unsafe for a label whose listed
    score is below the threshold. *)
Theorem assess_confidence_scores :
  (forall t ds l, dict_get (confidence_scores (assess t ds)) l = last_score l ds) /\
  let v := assess float_0_6 [mk_raw "EXPOSED_BREAST_F" float_0_9 [];
                             mk_raw "EXPOSED_BREAST_F" float_0_3 []] in
  is_safe v = false /\ dict_get (confidence_scores v) "EXPOSED_BREAST_F" = Some float_0_3.
Proof.
  split.
  - intros t ds l. unfold assess. pose proof (scan_scores t ds [] [] l) as H.
    destruct (scan t ds [] []) as [du sc]. simpl in *. rewrite H.
    destruct (last_score l ds); reflexivity.
  - split; vm_compute; reflexivity.
Qed.

(** ** main.py: endpoints that cannot fail *)

Lemma check_image_total w m b s : exists v s', check_image w m b s = (Ok v, s').
Proof. unfold check_image. apply try_except_total. intros. unfold ret. eauto. Qed.

(** [/api/moderate] never answers with an error: it returns the verdict's
    [is_safe] and [message] together with the verdict, whatever the upload
    and whatever the detector does. *)
Theorem moderate_image_never_fails : forall w app b s,
  exists v s', check_image w (content_moderator app) b s = (Ok v, s') /\
               moderate_image w app b s = (Ok (is_safe v, message v, v), s').
Proof.
  intros w app b s. destruct (check_image_total w (content_moderator app) b s) as [v [s' H]].
  exists v, s'. split; [exact H|].
  unfold moderate_image, http_500, try_except, bind. rewrite H. reflexivity.
Qed.

(** A safe image analysed while the description provider is unavailable
    gets neither description nor embedding, even when the vector service
    is up, and no provider is called. *)
Theorem analyze_without_describer : forall w app b s v s1,
  check_image w (content_moderator app) b s = (Ok v, s1) ->
  is_safe v = true ->
  is_available (image_descriptor app) = false ->
  analyze_image w app b s = (Ok (mk_analysis true None None v), s1) /\
  exists l, trace s1 = (trace s ++ l)%list /\ Forall (fun ev => ~ provider_call ev) l.
Proof.
  intros w app b s v s1 Hc Hs Ha. split.
  - unfold analyze_image, http_500, try_except, bind. rewrite Hc, Hs, Ha. reflexivity.
  - exact (check_image_footprint w _ b s _ _ Hc).
Qed.

Lemma analyze_without_describer_witness :
  exists v s1,
    check_image w_post_fail (content_moderator app_unconfigured) [] st0 = (Ok v, s1) /\
    is_safe v = true /\
    analyze_image w_post_fail app_unconfigured [] st0 = (Ok (mk_analysis true None None v), s1).
Proof.
  do 2 eexists. split; [reflexivity|]. split; [reflexivity|].
  exact (proj1 (analyze_without_describer w_post_fail app_unconfigured [] st0 _ _
                  ltac:(reflexivity) ltac:(reflexivity) ltac:(reflexivity))).
Defined.

Lemma generate_embedding_ok w vs t s v s' :
  generate_embedding w vs t s = (Ok v, s') ->
  embedding_model vs = true /\ clip_encode w t = Ok v /\
  fs s' = fs s /\ collections s' = collections s /\ uuid_next s' = uuid_next s.
Proof.
  unfold generate_embedding, bind, emit, try_except, raise, lift. simpl.
  destruct (embedding_model vs); simpl; [|intros H; discriminate H].
  destruct (clip_encode w t); intros H; inversion H; subst; auto.
Qed.

(** [/api/analyze] answers with an error only through the embedding step:
    an error response implies a safe verdict, an available description
    provider, a non-empty description and a failed [generate_embedding],
    whose message becomes the detail of the 500. *)
Theorem analyze_fails_only_on_embedding : forall w app b s e s',
  analyze_image w app b s = (Err e, s') ->
  exists v s1 d s2 e0,
    check_image w (content_moderator app) b s = (Ok v, s1) /\ is_safe v = true /\
    is_available (image_descriptor app) = true /\
    generate_description w (image_descriptor app) b s1 = (Ok d, s2) /\
    vs_available (vector_search app) = true /\ truthy d = true /\
    generate_embedding w (vector_search app) d s2 = (Err e0, s') /\
    e = HTTPException 500 (str_exn e0).
Proof.
  intros w app b s e s' H.
  destruct (check_image_total w (content_moderator app) b s) as [v [s1 Hc]].
  unfold analyze_image, http_500, try_except, bind at 1 in H. rewrite Hc in H.
  destruct (is_safe v) eqn:Hs; simpl in H; [|discriminate H].
  destruct (is_available (image_descriptor app)) eqn:Ha; [|discriminate H].
  destruct (generate_description_never_raises w (image_descriptor app) b s1) as [d [s2 Hd]].
  unfold bind at 1 in H. rewrite Hd in H.
  destruct (vs_available (vector_search app)) eqn:Hv; simpl in H; [|discriminate H].
  destruct (truthy d) eqn:Ht; [|discriminate H].
  unfold bind in H.
  destruct (generate_embedding w (vector_search app) d s2) as [[x|e0] s3] eqn:He;
    [discriminate H|].
  inversion H; subst. exists v, s1, d, s2, e0. repeat split; auto.
Qed.

Lemma analyze_fails_only_on_embedding_witness :
  exists e s', analyze_image w_embed_fail app_ollama [] st0 = (Err e, s') /\
    exists v s1 d s2 e0,
      generate_description w_embed_fail (image_descriptor app_ollama) [] s1 = (Ok d, s2) /\
      generate_embedding w_embed_fail (vector_search app_ollama) d s2 = (Err e0, s') /\
      e = HTTPException 500 (str_exn e0) /\ check_image w_embed_fail (content_moderator app_ollama) [] st0 = (Ok v, s1).
Proof.
  do 2 eexists. split; [reflexivity|].
  destruct (analyze_fails_only_on_embedding w_embed_fail app_ollama [] st0 _ _ eq_refl)
    as [v [s1 [d [s2 [e0 [Hc [_ [_ [Hd [_ [_ [He Hx]]]]]]]]]]]].
  exists v, s1, d, s2, e0. auto.
Defined.

(** ** image_description.py: the probe of [/api/tags] *)

Lemma model_name_in needle m :
  model_well_formed m = true ->
  match py_get m "name" (JStr EmptyString) with Ok n => py_in needle n | Err e => Err e end
  = Ok (str_contains needle (model_name m)).
Proof.
  destruct m as [| | | | | |kvs]; try discriminate. unfold model_well_formed, model_name, py_get.
  destruct (dict_get kvs "name") as [[]|]; try discriminate; reflexivity.
Qed.

Lemma py_any_names needle ms :
  forallb model_well_formed ms = true ->
  py_any (fun m => match py_get m "name" (JStr EmptyString) with
                   | Ok n => py_in needle n
                   | Err e => Err e
                   end) ms
  = Ok (existsb (fun m => str_contains needle (model_name m)) ms).
Proof.
  induction ms as [|m ms IH]; [reflexivity|].
  intros H. apply andb_true_iff in H as [Hm Hms]. cbn [py_any existsb].
  rewrite (model_name_in needle m Hm).
  destruct (str_contains needle (model_name m)); [reflexivity | exact (IH Hms)].
Qed.

Lemma init_describer_shape w e s d s' :
  init_describer w e s = (Ok d, s') ->
  _check_availability w (describer_config e) s = (Ok (_is_available d), s') /\
  provider d = provider (describer_config e) /\ ollama_url d = ollama_url (describer_config e) /\
  ollama_model d = "llava" /\ openai_api_key d = OPENAI_API_KEY e.
Proof.
  unfold init_describer, bind.
  destruct (_check_availability w (describer_config e) s) as [[b|ex] s1];
    intros H; inversion H; subst; simpl; auto.
Qed.

(** With the local provider, when [/api/tags] answers 200 with a JSON value
    whose [models] list (a missing key counts as empty) holds dicts with
    string names, the service is available exactly when some model's name
    contains "llava" as a substring: "bakllava" or "llava:13b" count, a list
    without such a name gives false. *)
Theorem ollama_probe_substring : forall w e s d s' j ms,
  init_describer w e s = (Ok d, s') ->
  provider d = "ollama" ->
  http_get w (tags_url d) = HttpResp 200 (Some j) ->
  py_get j "models" (JArr []) = Ok (JArr ms) ->
  forallb model_well_formed ms = true ->
  is_available d = existsb (fun m => str_contains "llava" (model_name m)) ms.
Proof.
  intros w e s d s' j ms H Hp Hg Hm Hw.
  destruct (init_describer_shape w e s d s' H) as [Hc [Hp' [Hu [Hmod _]]]].
  rewrite Hp in Hp'. unfold tags_url in Hg. rewrite Hu in Hg.
  unfold _check_availability, check_availability_body, try_except, bind, emit, lift, ret in Hc.
  rewrite <- Hp' in Hc. simpl in Hc. unfold tags_url in Hc. rewrite Hg in Hc. simpl in Hc.
  rewrite Hm in Hc. simpl in Hc. rewrite (py_any_names "llava" ms Hw) in Hc.
  injection Hc as Hb _. unfold is_available. rewrite <- Hb. reflexivity.
Qed.

Lemma ollama_probe_substring_witness :
  exists d s',
    init_describer (w_tags [JObj [("name", JStr "bakllava:latest")]]) env_default st0 = (Ok d, s') /\
    is_available d = true /\
    init_describer (w_tags [JObj [("name", JStr "mistral:7b")]; JObj []]) env_default st0
    = (Ok (mk_describer "ollama" "http://localhost:11434" "llava" None "gpt-4o-mini" false),
       mk_st [] [("asset_images", [])] 0 [EvHttpGet "http://localhost:11434/api/tags"]).
Proof.
  do 2 eexists. split; [reflexivity|]. split; [|reflexivity].
  exact (ollama_probe_substring (w_tags [JObj [("name", JStr "bakllava:latest")]]) env_default st0
           _ _ _ [JObj [("name", JStr "bakllava:latest")]]
           ltac:(reflexivity) ltac:(reflexivity) ltac:(reflexivity) ltac:(reflexivity)
           ltac:(reflexivity)).
Defined.

(** ** image_description.py: the cloud provider's key *)

(** When the cloud provider is configured and reported available, the key
    that goes into the [Authorization] header is the non-empty value of
    [OPENAI_API_KEY]; the text "None" is never sent, and the probe made no
    call. *)
Theorem openai_available_has_key : forall w e s d s',
  init_describer w e s = (Ok d, s') ->
  provider d = "openai" -> is_available d = true ->
  exists k, OPENAI_API_KEY e = Some k /\ k <> EmptyString /\
            key_str (openai_api_key d) = k /\ s' = s.
Proof.
  intros w e s d s' H Hp Ha.
  destruct (init_describer_shape w e s d s' H) as [Hc [Hp' [_ [_ Hk]]]].
  rewrite Hp in Hp'. symmetry in Hp'.
  rewrite (check_availability_openai w _ s Hp') in Hc. inversion Hc as [[Hb Hs]].
  unfold is_available in Ha. rewrite <- Hb in Ha. simpl in Ha.
  unfold key_str. rewrite Hk.
  destruct (OPENAI_API_KEY e) as [k|]; [|discriminate Ha].
  exists k. destruct k; [discriminate Ha|]. repeat split; auto. discriminate.
Qed.

Lemma openai_available_has_key_witness :
  exists d s', init_describer w_unsafe env_openai_key st0 = (Ok d, s') /\
    key_str (openai_api_key d) = "sk-test".
Proof.
  do 2 eexists. split; [reflexivity|].
  destruct (openai_available_has_key w_unsafe env_openai_key st0 _ _
              ltac:(reflexivity) ltac:(reflexivity) ltac:(reflexivity)) as [k [Hk [_ [H _]]]].
  rewrite H. simpl in Hk. inversion Hk. reflexivity.
Defined.

(** ** image_description.py: [generate_description] *)

(** [generate_description] never raises.  With the provider reported
    unavailable it returns the text "Image description unavailable -
    <provider> service not configured" without any HTTP request; so
    [/api/describe], once the provider is available, answers with exactly
    what [generate_description] returns and never with an error. *)
Theorem generate_description_total : forall w d b s,
  (exists x s', generate_description w d b s = (Ok x, s')) /\
  (_is_available d = false ->
   generate_description w d b s
   = (Ok ("Image description unavailable - " ++ provider d ++ " service not configured"),
      mk_st (fs s) (collections s) (uuid_next s) (trace s ++ [EvGenerateDescription]))) /\
  (forall app, image_descriptor app = d -> is_available d = true ->
   describe_image w app b s = generate_description w d b s).
Proof.
  intros w d b s. split; [apply generate_description_never_raises|]. split.
  - intros H. unfold generate_description, bind, emit, try_except. simpl. rewrite H. reflexivity.
  - intros app Happ Ha. unfold describe_image, http_500, try_except. rewrite Happ, Ha. simpl.
    destruct (generate_description_never_raises w d b s) as [x [s' Hx]]. rewrite Hx. reflexivity.
Qed.

Lemma generate_description_total_witness :
  generate_description w_unsafe (ollama_describer false) [] st0
  = (Ok "Image description unavailable - ollama service not configured",
     mk_st [] [("asset_images", [])] 0 [EvGenerateDescription]) /\
  describe_image w_post_fail app_ollama [] st0
  = generate_description w_post_fail (ollama_describer true) [] st0.
Proof.
  split.
  - exact (proj1 (proj2 (generate_description_total w_unsafe (ollama_describer false) [] st0))
             eq_refl).
  - exact (proj2 (proj2 (generate_description_total w_post_fail (ollama_describer true) [] st0))
             app_ollama eq_refl eq_refl).
Defined.

(** ** image_description.py: what each provider call returns *)

Lemma lstrip_forallb l : forallb py_isspace (lstrip_list l) = forallb py_isspace l.
Proof.
  induction l as [|c l IH]; simpl; auto.
  destruct (py_isspace c) eqn:E; simpl; [exact IH | now rewrite E].
Qed.

Lemma lstrip_nil l : lstrip_list l = [] <-> forallb py_isspace l = true.
Proof.
  induction l as [|c l IH]; simpl; [tauto|].
  destruct (py_isspace c); simpl; [exact IH | split; discriminate].
Qed.

Lemma forallb_rev_ascii (f : Ascii.ascii -> bool) l : forallb f (rev l) = forallb f l.
Proof.
  induction l as [|c l IH]; simpl; auto.
  rewrite forallb_app, IH. simpl. rewrite andb_true_r, andb_comm. reflexivity.
Qed.

Lemma rev_nil_iff_ascii (l : list Ascii.ascii) : rev l = [] <-> l = [].
Proof.
  split; intros H; [|subst; reflexivity].
  apply (f_equal (@rev _)) in H. rewrite rev_involutive in H. exact H.
Qed.

(** [s.strip()] is empty exactly when [s] is made of whitespace only. *)
Lemma strip_empty t : strip t = EmptyString <-> forallb py_isspace (list_ascii_of_string t) = true.
Proof.
  unfold strip.
  assert (Hs : forall x, string_of_list_ascii x = EmptyString <-> x = [])
    by (intros [|c x]; simpl; split; congruence).
  rewrite Hs, rev_nil_iff_ascii, lstrip_nil, forallb_rev_ascii, lstrip_forallb. reflexivity.
Qed.

(** The local provider's call never raises.  A failure to prepare the image
    or a raised request gives "Error with Ollama: <error>"; a status other
    than 200 gives "Failed to generate image description".  A 200 reply
    that is not JSON gives the decoder's error text, a JSON value other than
    a dict gives the [AttributeError] of [.get], a dict gives its [response]
    stripped (the empty text when the key is missing or the response is
    whitespace only), and a [response] that is not a string gives the
    [AttributeError] of [.strip]. *)
Theorem ollama_description_outcomes : forall w d b s,
  (exists x s', _generate_with_ollama w d b s = (Ok x, s')) /\
  (forall e, prepare_jpeg w b 512 = Err e ->
     fst (_generate_with_ollama w d b s) = Ok ("Error with Ollama: " ++ str_exn e)) /\
  (forall buf, prepare_jpeg w b 512 = Ok buf ->
     let req := ReqOllamaGenerate (ollama_url d ++ "/api/generate") (ollama_model d)
                                  description_prompt buf in
     (forall e, http_post w req = HttpRaise e ->
        fst (_generate_with_ollama w d b s) = Ok ("Error with Ollama: " ++ str_exn e)) /\
     (forall code body, code <> 200%Z -> http_post w req = HttpResp code body ->
        fst (_generate_with_ollama w d b s) = Ok "Failed to generate image description") /\
     (http_post w req = HttpResp 200 None ->
        fst (_generate_with_ollama w d b s)
        = Ok "Error with Ollama: Expecting value: line 1 column 1 (char 0)") /\
     (forall j, http_post w req = HttpResp 200 (Some j) -> (forall kvs, j <> JObj kvs) ->
        fst (_generate_with_ollama w d b s)
        = Ok ("Error with Ollama: '" ++ type_name j ++ "' object has no attribute 'get'")) /\
     (forall kvs t, http_post w req = HttpResp 200 (Some (JObj kvs)) ->
        dict_get kvs "response" = Some (JStr t) ->
        fst (_generate_with_ollama w d b s) = Ok (strip t) /\
        (strip t = EmptyString <-> forallb py_isspace (list_ascii_of_string t) = true)) /\
     (forall kvs, http_post w req = HttpResp 200 (Some (JObj kvs)) ->
        dict_get kvs "response" = None ->
        fst (_generate_with_ollama w d b s) = Ok EmptyString) /\
     (forall kvs v, http_post w req = HttpResp 200 (Some (JObj kvs)) ->
        dict_get kvs "response" = Some v -> (forall t, v <> JStr t) ->
        fst (_generate_with_ollama w d b s)
        = Ok ("Error with Ollama: '" ++ type_name v ++ "' object has no attribute 'strip'"))).
Proof.
  intros w d b s. split.
  { unfold _generate_with_ollama. apply try_except_total. intros. unfold ret. eauto. }
  unfold _generate_with_ollama, try_except, bind, lift, post, emit, ret, raise. split.
  - intros e H. rewrite H. reflexivity.
  - intros buf H. rewrite H. simpl. split; [|split; [|split; [|split; [|split; [|split]]]]].
    + intros e Hp. rewrite Hp. reflexivity.
    + intros code body Hc Hp. rewrite Hp. apply Z.eqb_neq in Hc. rewrite Hc. reflexivity.
    + intros Hp. rewrite Hp. reflexivity.
    + intros j Hp Hj. rewrite Hp. simpl.
      destruct j as [| | | | | |kvs]; try reflexivity. exfalso. exact (Hj kvs eq_refl).
    + intros kvs t Hp Hr. rewrite Hp. simpl. rewrite Hr. split; [reflexivity | apply strip_empty].
    + intros kvs Hp Hr. rewrite Hp. simpl. rewrite Hr. reflexivity.
    + intros kvs v Hp Hr Hv. rewrite Hp. simpl. rewrite Hr.
      destruct v as [| | | |t| |]; try reflexivity. exfalso. exact (Hv t eq_refl).
Qed.

Lemma ollama_description_outcomes_witness :
  fst (_generate_with_ollama (w_tags []) (ollama_describer true) [] st0) = Ok "a cat" /\
  fst (_generate_with_ollama w_post_fail (ollama_describer true) [] st0)
  = Ok "Failed to generate image description".
Proof.
  destruct (ollama_description_outcomes (w_tags []) (ollama_describer true) [] st0)
    as [_ [_ Hok]].
  destruct (Hok [Byte.x01] eq_refl) as [_ [_ [_ [_ [Ht _]]]]].
  destruct (ollama_description_outcomes w_post_fail (ollama_describer true) [] st0)
    as [_ [_ Hok']].
  destruct (Hok' [Byte.x01] eq_refl) as [_ [Hf _]].
  split.
  - exact (proj1 (Ht [("response", JStr " a cat ")] " a cat " eq_refl eq_refl)).
  - exact (Hf 500%Z None ltac:(discriminate) eq_refl).
Defined.

(** The cloud provider's call never raises.  A failure to prepare the image
    or a raised request gives "Error with OpenAI: <error>"; a status other
    than 200 gives "Failed to generate image description".  A 200 reply gives
    the stripped [choices[0].message.content] when that is a string, and
    "Error with OpenAI: <error>" otherwise: for a reply that is not JSON, not
    a dict, without [choices] (the text of the [KeyError]), with an empty
    [choices] list (that of the [IndexError]), without [message] or
    [content], or with a [content] that is not a string. *)
Theorem openai_description_outcomes : forall w d b s,
  (exists x s', _generate_with_openai w d b s = (Ok x, s')) /\
  (forall e, prepare_jpeg w b 1024 = Err e ->
     fst (_generate_with_openai w d b s) = Ok ("Error with OpenAI: " ++ str_exn e)) /\
  (forall buf, prepare_jpeg w b 1024 = Ok buf ->
     let req := ReqOpenAIChat (key_str (openai_api_key d)) (openai_model d) description_prompt
                              buf 300 in
     (forall e, http_post w req = HttpRaise e ->
        fst (_generate_with_openai w d b s) = Ok ("Error with OpenAI: " ++ str_exn e)) /\
     (forall code body, code <> 200%Z -> http_post w req = HttpResp code body ->
        fst (_generate_with_openai w d b s) = Ok "Failed to generate image description") /\
     (http_post w req = HttpResp 200 None ->
        fst (_generate_with_openai w d b s)
        = Ok "Error with OpenAI: Expecting value: line 1 column 1 (char 0)") /\
     (forall j, http_post w req = HttpResp 200 (Some j) ->
        match openai_content j with
        | Some t => fst (_generate_with_openai w d b s) = Ok (strip t)
        | None => exists msg, fst (_generate_with_openai w d b s) = Ok ("Error with OpenAI: " ++ msg)
        end) /\
     (forall kvs, http_post w req = HttpResp 200 (Some (JObj kvs)) ->
        dict_get kvs "choices" = Some (JArr []) ->
        fst (_generate_with_openai w d b s) = Ok "Error with OpenAI: list index out of range") /\
     (forall kvs, http_post w req = HttpResp 200 (Some (JObj kvs)) ->
        dict_get kvs "choices" = None ->
        fst (_generate_with_openai w d b s) = Ok "Error with OpenAI: 'choices'")).
Proof.
  intros w d b s. split.
  { unfold _generate_with_openai. apply try_except_total. intros. unfold ret. eauto. }
  unfold _generate_with_openai, try_except, bind, lift, post, emit, ret, raise. split.
  - intros e H. rewrite H. reflexivity.
  - intros buf H. rewrite H. simpl. split; [|split; [|split; [|split; [|split]]]].
    + intros e Hp. rewrite Hp. reflexivity.
    + intros code body Hc Hp. rewrite Hp. apply Z.eqb_neq in Hc. rewrite Hc. reflexivity.
    + intros Hp. rewrite Hp. reflexivity.
    + intros j Hp. rewrite Hp. simpl. unfold openai_content.
      destruct j as [| | | | | |kvs]; simpl; try (eexists; reflexivity).
      destruct (dict_get kvs "choices") as [c|]; simpl; [|eexists; reflexivity].
      destruct c as [| | | |[|ch t0]|[|x rest]|ckvs]; simpl; try (eexists; reflexivity).
      destruct x as [| | | | | |c0]; simpl; try (eexists; reflexivity).
      destruct (dict_get c0 "message") as [m|]; simpl; [|eexists; reflexivity].
      destruct m as [| | | | | |mkvs]; simpl; try (eexists; reflexivity).
      destruct (dict_get mkvs "content") as [v|]; simpl; [|eexists; reflexivity].
      destruct v; simpl; first [reflexivity | eexists; reflexivity].
    + intros kvs Hp Hc. rewrite Hp. simpl. rewrite Hc. reflexivity.
    + intros kvs Hp Hc. rewrite Hp. simpl. rewrite Hc. reflexivity.
Qed.

Lemma openai_description_outcomes_witness :
  fst (_generate_with_openai w_no_choices openai_describer [] st0)
  = Ok "Error with OpenAI: list index out of range" /\
  (exists msg, fst (_generate_with_openai w_no_choices openai_describer [] st0)
               = Ok ("Error with OpenAI: " ++ msg)).
Proof.
  destruct (openai_description_outcomes w_no_choices openai_describer [] st0) as [_ [_ Hok]].
  destruct (Hok [Byte.x01] eq_refl) as [_ [_ [_ [Hj [He _]]]]].
  split.
  - exact (He [("choices", JArr [])] eq_refl eq_refl).
  - exact (Hj (JObj [("choices", JArr [])]) eq_refl).
Defined.

(** ** vector_search.py: the payload of a record *)

Lemma fold_dict_set_get {V} (md : list (string * V)) d0 k :
  dict_get (fold_left (fun d kv => dict_set d (fst kv) (snd kv)) md d0) k
  = match last_value k md with Some v => Some v | None => dict_get d0 k end.
Proof.
  revert d0. induction md as [|[k' v] md IH]; intros d0; simpl; [reflexivity|].
  rewrite IH. destruct (last_value k md); [reflexivity|].
  rewrite dict_get_set, (String.eqb_sym k k'). destruct (String.eqb k' k); reflexivity.
Qed.

(** The payload [{"asset_id": ..., "description": ..., **metadata}] holds,
    for each key, the last value the metadata gives it, and otherwise the
    asset id or the description: a metadata key "asset_id" or
    "description" overrides the argument.  The [/api/index] metadata
    (workspace, name) adds two keys and overrides nothing. *)
Theorem index_payload_lookup :
  (forall a d md k,
     dict_get (index_payload a d md) k
     = match last_value k md with
       | Some v => Some v
       | None => if String.eqb k "asset_id" then Some a
                 else if String.eqb k "description" then Some d else None
       end) /\
  (forall a d ws n,
     index_payload a d [("workspace", ws); ("name", n)]
     = [("asset_id", a); ("description", d); ("workspace", ws); ("name", n)]).
Proof.
  split.
  - intros a d md k. unfold index_payload. rewrite fold_dict_set_get. reflexivity.
  - intros. reflexivity.
Qed.

(** ** main.py: [/api/index] and what [/api/search] reads back *)

(** A successful [/api/index] call answers [{"success": True, "asset_id":
    a}], and the collection then holds, under the next [uuid4] draw, the
    CLIP vector of the description with the payload asset id, description,
    workspace and name; a search hit carrying that payload is returned as
    that asset id and description with the hit's score. *)
Theorem index_endpoint_roundtrip : forall w app a d ws n s r s' pts,
  qdrant_client (vector_search app) = true ->
  dict_get (collections s) (collection_name (vector_search app)) = Some pts ->
  index_asset_endpoint w app a d ws n s = (Ok r, s') ->
  let pl := [("asset_id", a); ("description", d); ("workspace", ws); ("name", n)] in
  r = (true, a) /\
  exists v, clip_encode w d = Ok v /\
    dict_get (collections s') (collection_name (vector_search app))
    = Some (upsert_point pts (mk_point (uuid4 w (uuid_next s)) v pl)) /\
    forall sc, format_point (mk_scored pl sc) = mk_hit (Some a) sc d ws n /\
               to_search_result (format_point (mk_scored pl sc)) = Ok (mk_search_result a sc d).
Proof.
  intros w app a d ws n s r s' pts Hc Hg H pl.
  unfold index_asset_endpoint, http_500, try_except, bind, ret, raise in H.
  destruct (vs_available (vector_search app)); simpl in H; [|discriminate H].
  destruct (generate_embedding w (vector_search app) d s) as [[v|e] s1] eqn:He; [|discriminate H].
  destruct (generate_embedding_ok _ _ _ _ _ _ He) as [_ [Hv [_ [Hcol Hu]]]].
  destruct (index_asset w (vector_search app) a d v [("workspace", ws); ("name", n)] s1)
    as [[[]|e] s2] eqn:Hi; [|discriminate H].
  inversion H; subst r s2. split; [reflexivity|].
  rewrite <- Hcol in Hg.
  destruct (index_asset_ok _ _ _ _ _ _ _ _ _ Hc Hg Hi) as [_ ->].
  exists v. split; [exact Hv|]. split.
  - simpl. rewrite dict_get_set_same, Hu. reflexivity.
  - intros sc. split; reflexivity.
Qed.

Lemma index_endpoint_roundtrip_witness :
  exists s', index_asset_endpoint w_post_fail app_ollama "A" "a cat" "ws" "cat.png" st0
             = (Ok (true, "A"), s') /\
    dict_get (collections s') "asset_images"
    = Some [mk_point "uuid-0" [1] [("asset_id", "A"); ("description", "a cat");
                                  ("workspace", "ws"); ("name", "cat.png")]].
Proof.
  eexists. split; [reflexivity|].
  destruct (index_endpoint_roundtrip w_post_fail app_ollama "A" "a cat" "ws" "cat.png" st0 _ _ []
              eq_refl eq_refl ltac:(reflexivity)) as [_ [v [Hv [H _]]]].
  simpl in Hv. injection Hv as <-. refine (eq_trans H _). reflexivity.
Defined.

Lemma map_result_hits ps :
  forallb has_asset_id ps = true ->
  map_result to_search_result (map format_point ps)
  = Ok (map (fun p => mk_search_result (payload_get (sp_payload p) "asset_id" EmptyString)
                                       (sp_score p)
                                       (payload_get (sp_payload p) "description" EmptyString)) ps).
Proof.
  induction ps as [|p ps IH]; simpl; [reflexivity|].
  intros H. apply andb_true_iff in H as [Hp Hps].
  unfold to_search_result, format_point, has_asset_id, payload_get in *. simpl.
  destruct (dict_get (sp_payload p) "asset_id"); [|discriminate Hp].
  rewrite (IH Hps). reflexivity.
Qed.

Lemma map_result_hits_err ps :
  forallb has_asset_id ps = false ->
  exists e, map_result to_search_result (map format_point ps) = Err e.
Proof.
  induction ps as [|p ps IH]; simpl; [discriminate|].
  intros H. unfold has_asset_id at 1 in H. unfold to_search_result at 1, format_point at 1.
  simpl. destruct (dict_get (sp_payload p) "asset_id"); simpl in H.
  - destruct (IH H) as [e He]. rewrite He. eauto.
  - eauto.
Qed.

(** [/api/search] embeds the query and asks Qdrant for [limit] hits.  For a
    limit of at least 1 it returns them in Qdrant's order as (asset id,
    score, description), with the limit passed unchanged and the store left
    as it was; when one hit's payload has no asset id the whole request fails
    with status 500.  Qdrant refuses a limit below 1, and the request then
    fails with status 500 with the store as it was. *)
Theorem search_similar_ranked : forall w app q l s pts v,
  vs_available (vector_search app) = true ->
  qdrant_client (vector_search app) = true ->
  embedding_model (vector_search app) = true ->
  clip_encode w q = Ok v ->
  qdrant_up w = None ->
  dict_get (collections s) (collection_name (vector_search app)) = Some pts ->
  ((1 <= l)%Z -> forallb has_asset_id (qdrant_rank w pts v l) = true ->
   exists s', search_similar w app q l s
              = (Ok (map (fun p => mk_search_result (payload_get (sp_payload p) "asset_id" EmptyString)
                                                    (sp_score p)
                                                    (payload_get (sp_payload p) "description" EmptyString))
                         (qdrant_rank w pts v l)), s') /\
              collections s' = collections s /\ In (EvQuery l) (trace s')) /\
  ((1 <= l)%Z -> forallb has_asset_id (qdrant_rank w pts v l) = false ->
   exists msg s', search_similar w app q l s = (Err (HTTPException 500 msg), s')) /\
  ((l < 1)%Z ->
   exists msg s', search_similar w app q l s = (Err (HTTPException 500 msg), s') /\
                  collections s' = collections s).
Proof.
  intros w app q l s pts v Hv Hc Hm He Hq Hg.
  assert (Hs : exists s1, collections s1 = collections s /\
            search w (vector_search app) q l s
            = match qdrant_query w (collection_name (vector_search app)) v l s1 with
              | (Ok ps, s2) => (Ok (map format_point ps), s2)
              | (Err e, s2) => (Err e, s2)
              end).
  { unfold search, try_except, bind at 1. rewrite Hc, Hm. simpl.
    destruct (generate_embedding w (vector_search app) q s) as [[v'|e] s1] eqn:Ge.
    - destruct (generate_embedding_ok _ _ _ _ _ _ Ge) as [_ [Hv' [_ [Hcol _]]]].
      rewrite He in Hv'. inversion Hv'; subst v'.
      exists s1. split; [exact Hcol|]. unfold bind, ret.
      destruct (qdrant_query w (collection_name (vector_search app)) v l s1) as [[ps|e] s2];
        reflexivity.
    - unfold generate_embedding, bind, emit, try_except, lift, raise in Ge. simpl in Ge.
      rewrite Hm, He in Ge. discriminate Ge. }
  destruct Hs as [s1 [Hcol Hs]].
  unfold qdrant_query in Hs. rewrite Hq in Hs.
  unfold search_similar, http_500, try_except, bind, lift, raise, negb. rewrite Hv.
  cbv beta iota. rewrite Hs.
  split; [|split].
  - intros Hl Ha. apply Z.ltb_ge in Hl. rewrite Hl, Hcol, Hg. cbv beta iota.
    rewrite (map_result_hits _ Ha). eexists. split; [reflexivity|]. split; [reflexivity|].
    apply in_or_app. right. left. reflexivity.
  - intros Hl Ha. apply Z.ltb_ge in Hl. rewrite Hl, Hcol, Hg. cbv beta iota.
    destruct (map_result_hits_err _ Ha) as [e He']. rewrite He'. eauto.
  - intros Hl. apply Z.ltb_lt in Hl. rewrite Hl. cbv beta iota. eauto.
Qed.

(** A vector store holding asset "A" and a point without an asset id; a
    limit of 0. *)
Lemma search_similar_ranked_witness :
  (exists s', search_similar (with_rank w_post_fail rank_all) app_ollama "cat" 1 st_two_assets
              = (Ok [mk_search_result "A" 1 "a cat"], s')) /\
  (exists msg s', search_similar (with_rank w_post_fail (fun _ _ _ => [mk_scored [] 1])) app_ollama
                    "cat" 5 st0 = (Err (HTTPException 500 msg), s')) /\
  (exists msg s', search_similar (with_rank w_post_fail rank_all) app_ollama "cat" 0 st_two_assets
                  = (Err (HTTPException 500 msg), s') /\
                  collections s' = collections st_two_assets).
Proof.
  split; [|split].
  - destruct (search_similar_ranked (with_rank w_post_fail rank_all) app_ollama "cat" 1%Z
                st_two_assets _ [1] eq_refl eq_refl eq_refl eq_refl eq_refl eq_refl) as [Hok _].
    assert (Hl : (1 <= 1)%Z) by lia.
    destruct (Hok Hl eq_refl) as [s' [H _]]. exists s'. exact H.
  - destruct (search_similar_ranked (with_rank w_post_fail (fun _ _ _ => [mk_scored [] 1]))
                app_ollama "cat" 5%Z st0 [] [1] eq_refl eq_refl eq_refl eq_refl eq_refl eq_refl)
      as [_ [Herr _]].
    assert (Hl : (1 <= 5)%Z) by lia.
    exact (Herr Hl eq_refl).
  - destruct (search_similar_ranked (with_rank w_post_fail rank_all) app_ollama "cat" 0%Z
                st_two_assets _ [1] eq_refl eq_refl eq_refl eq_refl eq_refl eq_refl)
      as [_ [_ Hz]].
    assert (Hl : (0 < 1)%Z) by lia.
    exact (Hz Hl).
Defined.

(** ** vector_search.py: setting up the collection *)

Lemma dict_get_exists {V} (d : list (string * V)) k :
  existsb (String.eqb k) (map fst d) = match dict_get d k with Some _ => true | None => false end.
Proof.
  induction d as [|[k' v] d IH]; simpl; [reflexivity|].
  destruct (String.eqb k k'); [reflexivity | exact IH].
Qed.

(** [VectorSearchService()] returns only when [QDRANT_PORT] converts to an
    integer.  It is then available exactly when the CLIP model loads, the
    client is created, Qdrant answers, and either the collection
    "asset_images" exists already or Qdrant accepts its creation (a
    concurrent create makes it refuse).  When available it leaves that
    collection with the points it already had (an empty one when it was
    missing) and every other collection untouched; when it is not available
    the store is as before. *)
Theorem init_vector_search_collection : forall w e s vs s',
  init_vector_search w e s = (Ok vs, s') ->
  (exists p, parse_port (QDRANT_PORT e) = Ok p) /\
  collection_name vs = "asset_images" /\ fs s' = fs s /\ trace s' = trace s /\
  (vs_available vs = true <->
   (exists u, clip_load w = Ok u) /\ (exists u, qdrant_connect w = Ok u) /\ qdrant_up w = None /\
   (dict_get (collections s) "asset_images" <> None \/ qdrant_create_error w = None)) /\
  (vs_available vs = true ->
   dict_get (collections s') "asset_images"
   = Some (match dict_get (collections s) "asset_images" with Some p => p | None => [] end) /\
   forall c, c <> "asset_images" -> dict_get (collections s') c = dict_get (collections s) c) /\
  (vs_available vs = false -> s' = s).
Proof.
  intros w e s vs s' H. unfold init_vector_search, bind at 1, lift in H.
  destruct (parse_port (QDRANT_PORT e)) as [p|ex] eqn:Hp; [|discriminate H].
  split; [eauto|].
  destruct (clip_load w) as [u1|e1] eqn:Hl.
  2: { unfold ret in H. inversion H; subst. simpl. repeat split; auto; try discriminate.
       intros [[u Hu] _]. discriminate Hu. }
  destruct (qdrant_connect w) as [u2|e2] eqn:Hq.
  2: { unfold ret in H. inversion H; subst. simpl. repeat split; auto; try discriminate.
       intros [_ [[u Hu] _]]. discriminate Hu. }
  unfold try_except, bind, get_collections, create_collection, ret in H.
  destruct (qdrant_up w) as [e3|] eqn:Hup.
  - inversion H; subst. simpl. repeat split; auto; try discriminate.
    intros [_ [_ [Hn _]]]. discriminate Hn.
  - rewrite dict_get_exists in H.
    destruct (dict_get (collections s) "asset_images") as [ps|] eqn:Hg; simpl in H.
    + inversion H; subst; simpl; (repeat split; eauto).
      all: first [left; discriminate | intros; reflexivity].
    + destruct (qdrant_create_error w) as [e4|] eqn:Hce.
      * inversion H; subst; simpl. repeat split; auto; try discriminate.
        intros [_ [_ [_ [Hn|Hn]]]]; [exfalso; now apply Hn | discriminate Hn].
      * inversion H; subst; simpl; (repeat split; eauto).
        all: first [ apply dict_get_set_same
                   | intros c Hc; apply String.eqb_neq in Hc; rewrite dict_get_set, Hc; reflexivity
                   | discriminate ].
Qed.

(** The store holding the collection, and a store without it when Qdrant
    refuses to create it. *)
Lemma init_vector_search_collection_witness :
  (exists vs s', init_vector_search w_unsafe env_default st_two_assets = (Ok vs, s') /\
    vs_available vs = true /\
    dict_get (collections s') "asset_images" = dict_get (collections st_two_assets) "asset_images") /\
  (exists vs s', init_vector_search (with_create_error w_unsafe (Some (PyExc "UnexpectedResponse" "Unexpected Response: 409 (Conflict)"))) env_default st_empty = (Ok vs, s') /\
    vs_available vs = false /\ s' = st_empty).
Proof.
  split.
  - do 2 eexists. split; [reflexivity|].
    destruct (init_vector_search_collection w_unsafe env_default st_two_assets _ _ eq_refl)
      as [_ [_ [_ [_ [Hav [Hc _]]]]]].
    assert (Ha : vs_available (mk_vs true true true "asset_images") = true) by reflexivity.
    split; [exact Ha|]. refine (eq_trans (proj1 (Hc Ha)) _). reflexivity.
  - do 2 eexists. split; [reflexivity|].
    destruct (init_vector_search_collection
                (with_create_error w_unsafe (Some (PyExc "UnexpectedResponse" "Unexpected Response: 409 (Conflict)")))
                env_default st_empty _ _ eq_refl)
      as [_ [_ [_ [_ [_ [_ Hf]]]]]].
    assert (Ha : vs_available (mk_vs true true false "asset_images") = false) by reflexivity.
    split; [exact Ha|]. exact (Hf Ha).
Defined.

(** ** vector_search.py: [delete_asset] *)

Lemma in_filter_asset a p pts :
  In p (filter (fun p => negb (matches_asset a p)) pts) <->
  In p pts /\ dict_get (payload p) "asset_id" <> Some a.
Proof.
  rewrite filter_In, negb_true_iff. unfold matches_asset.
  destruct (dict_get (payload p) "asset_id") as [v|].
  - destruct (String.eqb v a) eqn:E.
    + apply String.eqb_eq in E. subst v. split; [intros [_ H]; discriminate H | tauto].
    + apply String.eqb_neq in E. split; [intros [H _]; split; congruence | tauto].
  - split; [intros [H _]; split; congruence | tauto].
Qed.

(** [delete_asset] raises when there is no client.  Otherwise, on a
    reachable server and an existing collection, it removes every record of
    the asset (all those a repeated indexing left) and keeps the other
    records in their order and the other collections as they were. *)
Theorem delete_asset_removes_records : forall w vs a s,
  (qdrant_client vs = false ->
   delete_asset w vs a s = (Err (PyExc "Exception" "Qdrant client not initialized"), s)) /\
  (forall pts, qdrant_client vs = true -> qdrant_up w = None ->
   dict_get (collections s) (collection_name vs) = Some pts ->
   exists s', delete_asset w vs a s = (Ok tt, s') /\
     dict_get (collections s') (collection_name vs)
     = Some (filter (fun p => negb (matches_asset a p)) pts) /\
     (forall p, In p (filter (fun p => negb (matches_asset a p)) pts) <->
                In p pts /\ dict_get (payload p) "asset_id" <> Some a) /\
     (forall c, c <> collection_name vs -> dict_get (collections s') c = dict_get (collections s) c) /\
     fs s' = fs s /\ trace s' = trace s).
Proof.
  intros w vs a s. unfold delete_asset, try_except, raise, qdrant_delete. split.
  - intros H. rewrite H. reflexivity.
  - intros pts Hc Hq Hg. rewrite Hc. simpl. rewrite Hq, Hg.
    eexists. split; [reflexivity|]. simpl. split; [apply dict_get_set_same|].
    split; [intros; apply in_filter_asset|]. split; [|auto].
    intros c Hne. apply String.eqb_neq in Hne. rewrite dict_get_set, Hne. reflexivity.
Qed.

Lemma delete_asset_removes_records_witness :
  exists s', delete_asset w_unsafe vs_ready "A" st_two_assets = (Ok tt, s') /\
    dict_get (collections s') "asset_images"
    = Some [mk_point "p1" [2] [("asset_id", "B"); ("description", "a dog")]].
Proof.
  destruct (proj2 (delete_asset_removes_records w_unsafe vs_ready "A" st_two_assets) _
              eq_refl eq_refl eq_refl) as [s' [H1 [H2 _]]].
  exists s'. split; [exact H1|]. refine (eq_trans H2 _). reflexivity.
Defined.

(** Indexing an asset through the [/api/index] metadata and then deleting
    it leaves the collection as the deletion alone would: the new record is
    removed together with the asset's earlier ones. *)
Theorem index_then_delete : forall w vs a d e ws n s s1 s2 pts,
  qdrant_client vs = true ->
  dict_get (collections s) (collection_name vs) = Some pts ->
  (forall q, In q pts -> pid q <> uuid4 w (uuid_next s)) ->
  index_asset w vs a d e [("workspace", ws); ("name", n)] s = (Ok tt, s1) ->
  delete_asset w vs a s1 = (Ok tt, s2) ->
  dict_get (collections s2) (collection_name vs)
  = Some (filter (fun p => negb (matches_asset a p)) pts).
Proof.
  intros w vs a d e ws n s s1 s2 pts Hc Hg Hf Hi Hd.
  destruct (index_asset_ok w vs a d e _ s s1 pts Hc Hg Hi) as [Hq ->].
  rewrite upsert_point_fresh in Hd by (intros q Hin; apply Hf; exact Hin).
  unfold delete_asset, try_except, raise, qdrant_delete in Hd. rewrite Hc, Hq in Hd.
  simpl in Hd. rewrite dict_get_set_same in Hd. inversion Hd; subst s2. simpl.
  rewrite dict_get_set_same, filter_app. simpl.
  unfold matches_asset at 2. simpl. rewrite String.eqb_refl. simpl. now rewrite app_nil_r.
Qed.

Lemma index_then_delete_witness :
  exists s1 s2,
    index_asset w_unsafe vs_ready "A" "a bird" [3] [("workspace", "ws"); ("name", "bird.png")]
                st_two_assets = (Ok tt, s1) /\
    delete_asset w_unsafe vs_ready "A" s1 = (Ok tt, s2) /\
    dict_get (collections s2) "asset_images"
    = Some [mk_point "p1" [2] [("asset_id", "B"); ("description", "a dog")]].
Proof.
  do 2 eexists. split; [reflexivity|]. split; [reflexivity|].
  refine (eq_trans (index_then_delete w_unsafe vs_ready "A" "a bird" [3] "ws" "bird.png"
                      st_two_assets _ _ _ eq_refl eq_refl _ eq_refl eq_refl) _).
  - intros q [<-|[<-|[]]]; discriminate.
  - reflexivity.
Defined.

(** ** main.py: the process *)

Lemma serve_total w app rs s :
  exists outs s', serve w app rs s = (Ok outs, s') /\ length outs = length rs.
Proof.
  revert s. induction rs as [|r rs IH]; intros s; simpl.
  - unfold ret. eauto.
  - unfold bind at 1, catch_result. destruct (handle w app r s) as [x s1].
    unfold bind. destruct (IH s1) as [outs [s2 [H Hl]]]. rewrite H. unfold ret.
    do 2 eexists. split; [reflexivity|]. simpl. now rewrite Hl.
Qed.

(** The process stops at import with the first failure of startup, in the
    order of the code, answering no request and touching nothing before it:
    the [ValueError] of a [CONTENT_MODERATION_THRESHOLD] that is not a float
    (before the detector is created), then the failure of [NudeDetector()],
    then the [ValueError] of a [QDRANT_PORT] that is not an integer.  Without
    any of these startup succeeds with the threshold converted from the
    environment (0.6 when unset) and every request gets an answer. *)
Theorem run_process_startup : forall w e rs s,
  (forall raw, CONTENT_MODERATION_THRESHOLD e = Some (NoParse raw) ->
   run_process w e rs s
   = (Err (PyExc "ValueError" ("could not convert string to float: '" ++ raw ++ "'")), s)) /\
  (forall t ex, parse_threshold (CONTENT_MODERATION_THRESHOLD e) = Ok t -> nudenet_init w = Err ex ->
   run_process w e rs s = (Err ex, s)) /\
  (forall t u raw, parse_threshold (CONTENT_MODERATION_THRESHOLD e) = Ok t -> nudenet_init w = Ok u ->
   QDRANT_PORT e = Some (NoParse raw) ->
   exists s', run_process w e rs s
              = (Err (PyExc "ValueError" ("invalid literal for int() with base 10: '" ++ raw ++ "'")), s') /\
              fs s' = fs s /\ collections s' = collections s) /\
  (forall t u p, parse_threshold (CONTENT_MODERATION_THRESHOLD e) = Ok t -> nudenet_init w = Ok u ->
   parse_port (QDRANT_PORT e) = Ok p ->
   exists app s1 outs s2,
     startup w e s = (Ok app, s1) /\ threshold (content_moderator app) = t /\
     run_process w e rs s = (Ok (app, outs), s2) /\ length outs = length rs).
Proof.
  intros w e rs s.
  destruct (init_describer_total w e s) as [d [s1 Hd]].
  pose proof (startup_eq w e s d s1 Hd) as Hs.
  assert (Hrun : forall ex s2, startup w e s = (Err ex, s2) -> run_process w e rs s = (Err ex, s2)).
  { intros ex s2 H. unfold run_process, bind at 1. rewrite H. reflexivity. }
  split; [|split; [|split]].
  - intros raw Hr. apply Hrun. rewrite Hs, Hr. reflexivity.
  - intros t ex Ht Hn. apply Hrun. rewrite Hs, Ht, Hn. reflexivity.
  - intros t u raw Ht Hn Hr.
    pose proof (init_vector_search_total w e s1) as Hv. rewrite Hr in Hv. simpl in Hv.
    exists s1. split; [apply Hrun; rewrite Hs, Ht, Hn, Hv; reflexivity|].
    unfold init_describer, bind, ret in Hd.
    destruct (_check_availability w (describer_config e) s) as [[b|ex] s0] eqn:Hc;
      [|discriminate Hd].
    injection Hd as _ <-.
    exact (check_availability_store w (describer_config e) s _ _ Hc).
  - intros t u p Ht Hn Hp.
    destruct (startup_cases w e s d s1 Hd) as [_ Hok].
    destruct (Hok t u p Ht Hn Hp) as [vs [s2 Hst]].
    destruct (serve_total w (mk_app (mk_moderator t) d vs) rs s2) as [outs [s3 [Hsv Hl]]].
    do 4 eexists. split; [exact Hst|]. split; [reflexivity|]. split; [|exact Hl].
    unfold run_process, bind at 1. rewrite Hst. unfold bind, ret. rewrite Hsv. reflexivity.
Qed.

(** A threshold "high", a missing detector model, a port "qdrant". *)
Lemma run_process_startup_witness :
  run_process w_unsafe (mk_env None None None None (Some (NoParse "high")) None) [ReqHealth] st0
  = (Err (PyExc "ValueError" "could not convert string to float: 'high'"), st0) /\
  run_process (with_nudenet_init w_unsafe (Err (PyExc "OSError" "model file not found")))
              env_default [ReqHealth] st0
  = (Err (PyExc "OSError" "model file not found"), st0) /\
  (exists s', run_process w_unsafe (mk_env None None None None None (Some (NoParse "qdrant"))) [ReqHealth] st0
              = (Err (PyExc "ValueError" "invalid literal for int() with base 10: 'qdrant'"), s') /\
              fs s' = fs st0 /\ collections s' = collections st0).
Proof.
  split; [|split].
  - exact (proj1 (run_process_startup w_unsafe (mk_env None None None None (Some (NoParse "high")) None)
                    [ReqHealth] st0) "high" eq_refl).
  - exact (proj1 (proj2 (run_process_startup
                  (with_nudenet_init w_unsafe (Err (PyExc "OSError" "model file not found")))
                  env_default [ReqHealth] st0)) float_0_6 _ eq_refl eq_refl).
  - exact (proj1 (proj2 (proj2 (run_process_startup w_unsafe
                  (mk_env None None None None None (Some (NoParse "qdrant"))) [ReqHealth] st0)))
                  float_0_6 tt "qdrant" eq_refl eq_refl eq_refl).
Defined.
